(** * Student GPA prediction: the preprocessing-and-prediction pipeline

    A shallow embedding of [src/predict.py] ([predict_gpa]),
    [src/feature_engineering.py] ([build_feature_preprocessor]), the
    outlier loop of [main.py] ([load_and_clean_data]), the form handling of
    [gui.py] ([_get_input_data], [_predict]) and [evaluate_model] of
    [src/model_evaluation.py], with the properties the specification
    states about them and further properties the code shows.

    Conventions of the embedding.
    - A finite float64 is an exact rational ([Q]) and the arithmetic on
      finite values is exact: rounding error and overflow are not
      represented. NaN and the two infinities are values of their own
      ([CNaN], [CInf] in a row, [NaN], [Inf] in an array).
    - A Python [dict] with string keys is a [gmap string cell].
    - A [raise] is the [Raise] case of [result]; an exception is its class
      together with its message.
    - The behaviour of the scikit-learn objects that
      [build_feature_preprocessor] configures is the documented behaviour of
      [StandardScaler()], [OneHotEncoder(drop="first", sparse_output=False)]
      (hence [handle_unknown="error"], the default) and
      [ColumnTransformer(..., remainder="passthrough")], fitted on a frame
      that holds the 8 feature columns and no other, so that no column is
      left to the remainder. *)

From Stdlib Require Import ZArith QArith Qround Qabs String Ascii List Lia Lqa.
From Stdlib Require Import Sorted OrderedTypeEx Permutation.
From stdpp Require Import gmap strings list fin_maps pretty.

Local Open Scope string_scope.

(* ===================================================================== *)
(** ** Numbers: numpy's clip and round *)
(* ===================================================================== *)

(** [np.maximum] and [np.minimum] on finite values. *)
Definition np_maximum (a b : Q) : Q := if Qle_bool a b then b else a.
Definition np_minimum (a b : Q) : Q := if Qle_bool a b then a else b.

(** [np.clip(x, lo, hi)] is [minimum(maximum(x, lo), hi)]. *)
Definition np_clip (x lo hi : Q) : Q := np_minimum (np_maximum x lo) hi.

(** [np.rint]: round to the nearest integer, ties to the even one. *)
Definition rint (q : Q) : Z :=
  let f := Qfloor q in
  match (q - inject_Z f ?= 1 # 2)%Q with
  | Lt => f
  | Gt => (f + 1)%Z
  | Eq => if Z.even f then f else (f + 1)%Z
  end.

(** [round(x, 2)] on a numpy scalar: scale by [10**2], [rint], scale back.
    On exact rationals this is the nearest hundredth; in float64 the
    product is rounded before [rint], so that next to a tie the code can
    return the neighbouring hundredth. *)
Definition round2 (q : Q) : Q := (inject_Z (rint (q * 100)) / 100)%Q.

(* ===================================================================== *)
(** ** Values, the input row and pandas' dtype inference *)
(* ===================================================================== *)

(** The value stored under one key of the input dictionary: an [int], a
    finite [float], a [bool], a [str], [None], [float("nan")] or one of
    [float("inf")] and [float("-inf")]. *)
Inductive cell : Type :=
| CInt (z : Z)
| CFloat (q : Q)
| CBool (b : bool)
| CStr (s : string)
| CNone
| CNaN
| CInf (negative : bool).

(** Column dtypes of the one-row frame [pd.DataFrame([new_student_data])]. *)
Inductive dtype : Type := Int64 | UInt64 | Float64 | BoolDtype | ObjectDtype.

Definition infer_dtype (c : cell) : dtype :=
  match c with
  | CInt z =>
      if (- 2 ^ 63 <=? z)%Z && (z <? 2 ^ 63)%Z then Int64
      else if (0 <=? z)%Z && (z <? 2 ^ 64)%Z then UInt64
      else ObjectDtype
  | CFloat _ => Float64
  | CBool _ => BoolDtype
  | CStr _ => ObjectDtype
  | CNone => ObjectDtype
  | CNaN => Float64
  | CInf _ => Float64
  end.

(** [pd.api.types.is_numeric_dtype]. *)
Definition is_numeric_dtype (d : dtype) : bool :=
  match d with
  | Int64 | UInt64 | Float64 | BoolDtype => true
  | ObjectDtype => false
  end.

(** The finite float64 a numeric column holds once scikit-learn has
    converted it; none for NaN and the infinities. Object columns are left
    out: [predict_gpa] raises on them before any transformer sees them. *)
Definition to_float (c : cell) : option Q :=
  match c with
  | CInt z => if is_numeric_dtype (infer_dtype c) then Some (inject_Z z) else None
  | CFloat q => Some q
  | CBool b => Some (if b then 1%Q else 0%Q)
  | CStr _ => None
  | CNone => None
  | CNaN => None
  | CInf _ => None
  end.

(** An element of a float64 array, as the input validation of
    scikit-learn tells them apart. *)
Inductive float64 : Type :=
| Finite (q : Q)
| NaN
| Inf (negative : bool).

Definition is_nan (x : float64) : bool :=
  match x with NaN => true | _ => false end.

Definition is_inf (x : float64) : bool :=
  match x with Inf _ => true | _ => false end.

(** The float64 a numeric column holds, NaN and the infinities included. *)
Definition to_float64 (c : cell) : option float64 :=
  match c with
  | CNaN => Some NaN
  | CInf negative => Some (Inf negative)
  | _ => option_map Finite (to_float c)
  end.

Definition is_infinity (c : cell) : bool :=
  match c with CInf _ => true | _ => false end.

(** Equality of two category values as the encoder looks a value up in a
    vocabulary: numbers by value (so [1], [1.0] and [True] agree), strings
    by content; [None] is found where the vocabulary holds [None], NaN
    where it holds NaN. An infinity never gets as far as the lookup. *)
Definition cell_number (c : cell) : option Q :=
  match c with
  | CInt z => Some (inject_Z z)
  | CFloat q => Some q
  | CBool b => Some (if b then 1%Q else 0%Q)
  | CStr _ => None
  | CNone => None
  | CNaN => None
  | CInf _ => None
  end.

Definition cell_eqb (a b : cell) : bool :=
  match cell_number a, cell_number b with
  | Some x, Some y => Qeq_bool x y
  | None, None =>
      match a, b with
      | CStr s, CStr t => String.eqb s t
      | CNone, CNone => true
      | CNaN, CNaN => true
      | _, _ => false
      end
  | _, _ => false
  end.

(** The objects [predict_gpa] may receive as arguments. *)
Inductive PyObj : Type :=
| PyNone
| PyStr (s : string)
| PyDict (d : gmap string cell).

Definition is_dict (o : PyObj) : bool :=
  match o with PyDict _ => true | _ => false end.

(* ===================================================================== *)
(** ** Exceptions and the error monad *)
(* ===================================================================== *)

(** Why a scikit-learn call raised its [ValueError]. *)
Inductive SkFailure : Type :=
| ColumnsMissing (names : list string)
| NotConvertible (column : string)
| InputContainsInfinity
| InputContainsNaN
| UnknownCategories (column : nat)
| FeatureCountMismatch (got expected : nat).

(** [SklearnTypeError] is the [TypeError] that [np.isnan] raises inside
    the encoder when a column of numbers meets a vocabulary of texts. *)
Inductive Exception : Type :=
| TypeError (msg : string)
| NotADirectoryError (msg : string)
| FileNotFoundError (msg : string)
| RuntimeError (msg : string)
| ValueError (msg : string)
| AttributeError (msg : string)
| SklearnValueError (why : SkFailure)
| SklearnTypeError (column : nat).

Inductive result (A : Type) : Type :=
| Return (a : A)
| Raise (e : Exception).
Arguments Return {A} a.
Arguments Raise {A} e.

Definition bind {A B : Type} (r : result A) (k : A -> result B) : result B :=
  match r with
  | Return a => k a
  | Raise e => Raise e
  end.

Notation "'let*' x ':=' r 'in' k" := (bind r (fun x => k))
  (at level 10, x name, r at level 100, k at level 200).

Definition returns {A : Type} (r : result A) : bool :=
  match r with Return _ => true | Raise _ => false end.

(* ===================================================================== *)
(** ** The training frame and numpy's [unique] *)
(* ===================================================================== *)

(** One row of the cleaned training frame: the label and the 8 features,
    [gender] and [club_participation] already cast to [int]. *)
Record Student : Type := {
  gpa : Q;
  major : string;
  gender : Z;
  attendance : Q;
  homework_completion : Q;
  lib_borrow : Q;
  club_participation : Z;
  class_interaction : Q;
  exam_score : Q
}.

(** [np.unique]: the sorted distinct values of a column, here by ordered
    insertion that skips a value already present. *)
Section Unique.
Context {A : Type} (cmp : A -> A -> comparison).

Fixpoint insert_unique (x : A) (l : list A) : list A :=
  match l with
  | [] => [x]
  | y :: l' =>
      match cmp x y with
      | Lt => x :: l
      | Eq => l
      | Gt => y :: insert_unique x l'
      end
  end.

Definition np_unique (l : list A) : list A := foldr insert_unique [] l.

(** Strictly increasing for [cmp]. *)
Definition ascending : list A -> Prop :=
  StronglySorted (fun a b => cmp a b = Lt).
End Unique.

(* ===================================================================== *)
(** ** scikit-learn: StandardScaler, OneHotEncoder, ColumnTransformer *)
(* ===================================================================== *)

Definition num_features : list string :=
  ["attendance"; "homework_completion"; "lib_borrow";
   "class_interaction"; "exam_score"].

Definition cat_features : list string :=
  ["major"; "gender"; "club_participation"].

Definition Qsum (l : list Q) : Q := foldr Qplus 0%Q l.

(** The mean of a column in exact arithmetic; the float64 mean that the
    scaler stores can differ from it in the last bits. *)
Definition mean (l : list Q) : Q :=
  (Qsum l / inject_Z (Z.of_nat (length l)))%Q.

(** [np.var], the population variance. *)
Definition variance (l : list Q) : Q :=
  let m := mean l in mean (map (fun x => ((x - m) * (x - m))%Q) l).

(** [np.finfo(np.float64).eps]. *)
Definition eps : Q := 1 # (2 ^ 52).

(** [_is_constant_feature(var, mean, n_samples)]. *)
Definition is_constant_feature (var mu : Q) (n : nat) : bool :=
  let n := inject_Z (Z.of_nat n) in
  Qle_bool var (n * eps * var + (n * mu * eps) * (n * mu * eps))%Q.

Record StandardScaler : Type := {
  mean_ : list Q;
  scale_ : list Q
}.

Record OneHotEncoder : Type := {
  categories_ : list (list cell)
}.

(** The [ColumnTransformer] fitted on a frame that holds the 8 feature
    columns and no other: the "num" and the "cat" transformer, and no
    column left for [remainder="passthrough"]. *)
Record ColumnTransformer : Type := {
  num : StandardScaler;
  cat : OneHotEncoder
}.

Record LinearRegression : Type := {
  coef_ : list Q;
  intercept_ : Q
}.

Section Fit.
(** [np.sqrt] on float64, left abstract. *)
Variable fsqrt : Q -> Q.

(** [scale_] of one column: [sqrt(var_)], replaced by 1 where the column
    is (near) constant ([_handle_zeros_in_scale]). *)
Definition scale_of (column : list Q) : Q :=
  if is_constant_feature (variance column) (mean column) (length column)
  then 1%Q
  else fsqrt (variance column).

Definition numeric_columns (df : list Student) : list (list Q) :=
  [map attendance df; map homework_completion df; map lib_borrow df;
   map class_interaction df; map exam_score df].

Definition scaler_fit (df : list Student) : StandardScaler :=
  {| mean_ := map mean (numeric_columns df);
     scale_ := map scale_of (numeric_columns df) |}.

Definition encoder_fit (df : list Student) : OneHotEncoder :=
  {| categories_ :=
       [map CStr (np_unique String.compare (map major df));
        map CInt (np_unique Z.compare (map gender df));
        map CInt (np_unique Z.compare (map club_participation df))] |}.

(** [preprocessor.fit(X_train)]; scikit-learn refuses a frame without
    rows. *)
Definition fit (df : list Student) : option ColumnTransformer :=
  match df with
  | [] => None
  | _ :: _ => Some {| num := scaler_fit df; cat := encoder_fit df |}
  end.
End Fit.

(** *** Transform of the one-row frame *)

Definition missing_columns (names : list string) (row : gmap string cell)
  : list string :=
  filter (fun f => row !! f = None) names.

Definition column (row : gmap string cell) (name : string) : cell :=
  default CNone (row !! name).

(** Conversion of the selected numeric columns to float64, in order. A
    column of dtype object (a text, [None], an int beyond 64 bits) is not
    followed further: [predict_gpa] never hands one over, its dtype check
    raises before; here such a column raises. *)
Fixpoint to_floats (row : gmap string cell) (names : list string)
  : result (list float64) :=
  match names with
  | [] => Return []
  | f :: names' =>
      match to_float64 (column row f) with
      | None => Raise (SklearnValueError (NotConvertible f))
      | Some x => let* xs := to_floats row names' in Return (x :: xs)
      end
  end.

Definition standardize (x mu sigma : Q) : Q := ((x - mu) / sigma)%Q.

(** [X -= mean_; X /= scale_] on one element: NaN stays NaN. An infinity
    does not get here, the validation of the scaler refuses it. *)
Definition standardize64 (x : float64) (mu sigma : Q) : float64 :=
  match x with
  | Finite q => Finite (standardize q mu sigma)
  | NaN => NaN
  | Inf negative => Inf negative
  end.

(** [StandardScaler.transform]: the input is validated with
    [ensure_all_finite="allow-nan"], which refuses an infinity and lets NaN
    through, then the number of columns is checked. *)
Definition scaler_transform (sc : StandardScaler) (xs : list float64)
  : result (list float64) :=
  if existsb is_inf xs
  then Raise (SklearnValueError InputContainsInfinity)
  else if negb (length xs =? length (mean_ sc))%nat
  then Raise (SklearnValueError
                (FeatureCountMismatch (length xs) (length (mean_ sc))))
  else Return (zip_with (fun x ms => standardize64 x (fst ms) (snd ms))
                 xs (zip (mean_ sc) (scale_ sc))).

Definition known (cats : list cell) (v : cell) : bool :=
  existsb (cell_eqb v) cats.

(** The array of a vocabulary has dtype object when it holds a text or
    [None]; a vocabulary of numbers is a numeric array. *)
Definition is_text (c : cell) : bool :=
  match c with
  | CStr _ | CNone => true
  | _ => false
  end.

Definition object_array (cats : list cell) : bool := existsb is_text cats.

(** A column of numeric dtype is looked up with numpy's set routines,
    which end in [np.isnan(known_values)]: a TypeError on an object
    array. *)
Definition isnan_raises (cats : list cell) (v : cell) : bool :=
  is_numeric_dtype (infer_dtype v) && object_array cats.

(** The loop over the columns in [_transform]: the first column whose
    value is refused decides the exception. *)
Fixpoint first_refused (i : nat) (vocab : list (list cell)) (vs : list cell)
  : option Exception :=
  match vocab, vs with
  | cats :: vocab', v :: vs' =>
      if isnan_raises cats v then Some (SklearnTypeError i)
      else if known cats v then first_refused (S i) vocab' vs'
      else Some (SklearnValueError (UnknownCategories i))
  | _, _ => None
  end.

(** The indicator columns of one feature with [drop="first"]: one per
    category of the vocabulary but the first. *)
Definition indicators (cats : list cell) (v : cell) : list Q :=
  map (fun c => if cell_eqb v c then 1%Q else 0%Q) (tail cats).

(** [OneHotEncoder.transform]: every column is validated with
    [ensure_all_finite="allow-nan"] first, then the number of columns is
    checked, then the values are looked up column by column. *)
Definition encoder_transform (enc : OneHotEncoder) (vs : list cell)
  : result (list Q) :=
  if existsb is_infinity vs
  then Raise (SklearnValueError InputContainsInfinity)
  else if negb (length vs =? length (categories_ enc))%nat
  then Raise (SklearnValueError
                (FeatureCountMismatch (length vs) (length (categories_ enc))))
  else
    match first_refused 0 (categories_ enc) vs with
    | Some e => Raise e
    | None =>
        Return (concat (zip_with indicators (categories_ enc) vs))
    end.

(** [ColumnTransformer.transform] of a one-row frame: the columns are
    selected by name, the "num" block comes first, the "cat" block
    second. *)
Definition transform (ct : ColumnTransformer) (row : gmap string cell)
  : result (list float64) :=
  match missing_columns (num_features ++ cat_features)%list row with
  | (_ :: _) as diff => Raise (SklearnValueError (ColumnsMissing diff))
  | [] =>
      let* xs := to_floats row num_features in
      let* scaled := scaler_transform (num ct) xs in
      let* onehot := encoder_transform (cat ct) (map (column row) cat_features) in
      Return (scaled ++ map Finite onehot)%list
  end.

(** [LinearRegression.predict] on one sample: the input is validated with
    [ensure_all_finite=True], which refuses NaN and infinities, then the
    number of columns is checked. *)
Definition dot (ws xs : list Q) : Q := Qsum (zip_with Qmult ws xs).

Fixpoint finite_values (x : list float64) : option (list Q) :=
  match x with
  | [] => Some []
  | Finite q :: x' => option_map (cons q) (finite_values x')
  | _ :: _ => None
  end.

Definition predict (lr : LinearRegression) (x : list float64) : result Q :=
  match finite_values x with
  | None =>
      Raise (SklearnValueError
               (if existsb is_nan x then InputContainsNaN
                else InputContainsInfinity))
  | Some xs =>
      if negb (length xs =? length (coef_ lr))%nat
      then Raise (SklearnValueError
                    (FeatureCountMismatch (length xs) (length (coef_ lr))))
      else Return (dot (coef_ lr) xs + intercept_ lr)%Q
  end.

(* ===================================================================== *)
(** ** The file system and the persisted artifacts *)
(* ===================================================================== *)

(** What [joblib.load] may hand back from the models directory. *)
Inductive Pickled : Type :=
| PkColumnTransformer (ct : ColumnTransformer)
| PkLinearRegression (lr : LinearRegression).

(** The part of the file system [predict_gpa] reads. [joblib_load] gives
    [inl text] when loading raises, [text] being [str(e)]. *)
Record FileSystem : Type := {
  os_path_isdir : string -> bool;
  os_path_exists : string -> bool;
  joblib_load : string -> string + Pickled
}.

Definition starts_with_sep (s : string) : bool :=
  match s with
  | String c _ => Ascii.eqb c "/"
  | EmptyString => false
  end.

Fixpoint ends_with_sep (s : string) : bool :=
  match s with
  | EmptyString => false
  | String c EmptyString => Ascii.eqb c "/"
  | String _ s' => ends_with_sep s'
  end.

(** [os.path.join] of two components (POSIX). *)
Definition os_path_join (a b : string) : string :=
  if starts_with_sep b then b
  else if String.eqb a EmptyString || ends_with_sep a then a +:+ b
  else a +:+ "/" +:+ b.

Definition newline : string := String (ascii_of_nat 10) EmptyString.

(** [repr] of a list of feature names, as an f-string prints it. *)
Definition repr_names (names : list string) : string :=
  "[" +:+ String.concat ", " (map (fun n => "'" +:+ n +:+ "'") names) +:+ "]".

(* ===================================================================== *)
(** ** predict_gpa *)
(* ===================================================================== *)

Definition required_features : list string :=
  ["major"; "gender"; "attendance"; "homework_completion";
   "lib_borrow"; "club_participation"; "class_interaction"; "exam_score"].

Definition numeric_features : list string :=
  ["attendance"; "homework_completion"; "lib_borrow";
   "class_interaction"; "exam_score"].

Definition train_first : string := "请先运行main.py训练模型".

Definition missing_features (row : gmap string cell) : list string :=
  filter (fun f => row !! f = None) required_features.

Definition missing_message (missing : list string) : string :=
  "❌ 缺失特征：" +:+ repr_names missing +:+ "，请补充后重新预测".

(** The loop over [numeric_features]: the first column whose dtype is not
    numeric raises. *)
Fixpoint check_numeric (row : gmap string cell) (feats : list string)
  : result unit :=
  match feats with
  | [] => Return tt
  | feat :: feats' =>
      if negb (is_numeric_dtype (infer_dtype (column row feat)))
      then Raise (TypeError ("❌ 特征" +:+ feat +:+ "必须是数值类型（整数/小数）"))
      else check_numeric row feats'
  end.

Definition call_transform (preprocessor : Pickled) (row : gmap string cell)
  : result (list float64) :=
  match preprocessor with
  | PkColumnTransformer ct => transform ct row
  | PkLinearRegression _ =>
      Raise (AttributeError
               "'LinearRegression' object has no attribute 'transform'")
  end.

Definition call_predict (model : Pickled) (x : list float64) : result Q :=
  match model with
  | PkLinearRegression lr => predict lr x
  | PkColumnTransformer _ =>
      Raise (AttributeError
               "'ColumnTransformer' object has no attribute 'predict'")
  end.

Section Predict.
(** [str()] of an arbitrary object, as the f-string of the directory
    check uses it. *)
Variable py_str : PyObj -> string.
Variable fs : FileSystem.

Definition valid_root (project_root : PyObj) : bool :=
  match project_root with
  | PyStr s => os_path_isdir fs s
  | _ => false
  end.

Definition root_path (project_root : PyObj) : string :=
  match project_root with PyStr s => s | _ => EmptyString end.

(** The [try] block around the two [joblib.load] calls. *)
Definition load_artifacts (model_path preprocessor_path : string)
  : result (Pickled * Pickled) :=
  match joblib_load fs model_path with
  | inl e => Raise (RuntimeError ("❌ 加载模型/流水线失败：" +:+ e))
  | inr model =>
      match joblib_load fs preprocessor_path with
      | inl e => Raise (RuntimeError ("❌ 加载模型/流水线失败：" +:+ e))
      | inr preprocessor => Return (model, preprocessor)
      end
  end.

Definition predict_gpa (new_student_data project_root : PyObj) : result Q :=
  match new_student_data with
  | PyDict input_df =>
      if negb (valid_root project_root)
      then Raise (NotADirectoryError
                    ("❌ 项目根目录无效：" +:+ py_str project_root))
      else
        let models_dir := os_path_join (root_path project_root) "models" in
        let model_path := os_path_join models_dir "linear_regression.pkl" in
        let preprocessor_path :=
          os_path_join models_dir "feature_preprocessor.pkl" in
        if negb (os_path_exists fs models_dir)
        then Raise (FileNotFoundError ("❌ 模型目录不存在：" +:+ models_dir))
        else if negb (os_path_exists fs preprocessor_path)
        then Raise (FileNotFoundError
                      ("❌ 特征流水线缺失：" +:+ preprocessor_path
                         +:+ newline +:+ train_first))
        else if negb (os_path_exists fs model_path)
        then Raise (FileNotFoundError
                      ("❌ 模型文件缺失：" +:+ model_path
                         +:+ newline +:+ train_first))
        else
          let* loaded := load_artifacts model_path preprocessor_path in
          let model := fst loaded in
          let preprocessor := snd loaded in
          match missing_features input_df with
          | (_ :: _) as missing => Raise (ValueError (missing_message missing))
          | [] =>
              let* _checked := check_numeric input_df numeric_features in
              let* input_processed := call_transform preprocessor input_df in
              let* pred_gpa := call_predict model input_processed in
              let pred_gpa := np_clip pred_gpa 1 4 in
              let pred_gpa := round2 pred_gpa in
              Return pred_gpa
          end
  | _ => Raise (TypeError "❌ new_student_data必须是字典类型")
  end.
End Predict.

(** Whether a message carries the instruction to train the model first. *)
Definition mentions (needle text : string) : bool :=
  match String.index 0 needle text with
  | Some _ => true
  | None => false
  end.

(* ===================================================================== *)
(** ** The outlier loop of load_and_clean_data *)
(* ===================================================================== *)

(** The columns [clip_rules] names. *)
Inductive Column : Type :=
| Gpa | Attendance | HomeworkCompletion | LibBorrow | ClassInteraction
| ExamScore.

Definition column_name (c : Column) : string :=
  match c with
  | Gpa => "gpa"
  | Attendance => "attendance"
  | HomeworkCompletion => "homework_completion"
  | LibBorrow => "lib_borrow"
  | ClassInteraction => "class_interaction"
  | ExamScore => "exam_score"
  end.

Definition get_col (c : Column) (s : Student) : Q :=
  match c with
  | Gpa => gpa s
  | Attendance => attendance s
  | HomeworkCompletion => homework_completion s
  | LibBorrow => lib_borrow s
  | ClassInteraction => class_interaction s
  | ExamScore => exam_score s
  end.

Definition set_col (c : Column) (v : Q) (s : Student) : Student :=
  {| gpa := match c with Gpa => v | _ => gpa s end;
     major := major s;
     gender := gender s;
     attendance := match c with Attendance => v | _ => attendance s end;
     homework_completion :=
       match c with HomeworkCompletion => v | _ => homework_completion s end;
     lib_borrow := match c with LibBorrow => v | _ => lib_borrow s end;
     club_participation := club_participation s;
     class_interaction :=
       match c with ClassInteraction => v | _ => class_interaction s end;
     exam_score := match c with ExamScore => v | _ => exam_score s end |}.

Definition clip_rules : list (Column * (Q * Q)) :=
  [(Gpa, (1, 4)); (Attendance, (20, 32)); (HomeworkCompletion, (3 # 5, 1));
   (LibBorrow, (0, 10)); (ClassInteraction, (0, 20)); (ExamScore, (60, 100))]%Q.

Definition Qlt_bool (x y : Q) : bool := negb (Qle_bool y x).

(** [(df[col] < min_val) | (df[col] > max_val)] on one row. *)
Definition out_of_range (lo hi x : Q) : bool := Qlt_bool x lo || Qlt_bool hi x.

(** [Series.clip(min_val, max_val)] on one value. *)
Definition series_clip (lo hi x : Q) : Q :=
  if Qlt_bool x lo then lo else if Qlt_bool hi x then hi else x.

Definition error_count (c : Column) (lo hi : Q) (df : list Student) : nat :=
  length (filter (fun s => out_of_range lo hi (get_col c s) = true) df).

(** One line of the report: the column, the number of corrected rows and
    the range. *)
Definition Report : Type := list (Column * nat * (Q * Q)).

(** One turn of the loop over [clip_rules]. *)
Definition clip_step (st : list Student * Report) (rule : Column * (Q * Q))
  : list Student * Report :=
  let '(df, printed) := st in
  let '(col, (min_val, max_val)) := rule in
  let n := error_count col min_val max_val df in
  if (0 <? n)%nat
  then (map (fun s => set_col col (series_clip min_val max_val (get_col col s)) s) df,
        (printed ++ [(col, n, (min_val, max_val))])%list)
  else (df, printed).

Definition clip_outliers (df : list Student) : list Student * Report :=
  fold_left clip_step clip_rules (df, []).

(* ===================================================================== *)
(** ** Vocabulary of the statements *)
(* ===================================================================== *)

(** The three paths [predict_gpa] derives from the project root. *)
Definition models_dir (root : string) : string := os_path_join root "models".
Definition model_path (root : string) : string :=
  os_path_join (models_dir root) "linear_regression.pkl".
Definition preprocessor_path (root : string) : string :=
  os_path_join (models_dir root) "feature_preprocessor.pkl".

(** The feature row has all 8 required keys. *)
Definition has_all_keys (row : gmap string cell) : bool :=
  forallb (fun f => bool_decide (is_Some (row !! f))) required_features.

(** Its numeric features are numeric-typed. *)
Definition numeric_typed (row : gmap string cell) : bool :=
  forallb (fun f => is_numeric_dtype (infer_dtype (column row f)))
    numeric_features.

(** Its numeric features hold finite numbers: an int of at most 64 bits,
    a finite float or a bool. *)
Definition is_finite_number (c : cell) : bool :=
  match to_float c with Some _ => true | None => false end.

Definition numeric_finite (row : gmap string cell) : bool :=
  forallb (fun f => is_finite_number (column row f)) numeric_features.

(** None of its categorical features holds an infinity. *)
Definition categorical_finite (row : gmap string cell) : bool :=
  forallb (fun f => negb (is_infinity (column row f))) cat_features.

(** The value of a categorical feature was seen at fit time: the encoder
    finds it in the vocabulary of the feature. *)
Definition seen (ct : ColumnTransformer) (i : nat) (row : gmap string cell)
  : bool :=
  match categories_ (cat ct) !! i, cat_features !! i with
  | Some cats, Some f =>
      negb (isnan_raises cats (column row f)) && known cats (column row f)
  | _, _ => false
  end.

Definition all_seen (ct : ColumnTransformer) (row : gmap string cell) : bool :=
  seen ct 0 row && seen ct 1 row && seen ct 2 row.

(** Both artifacts are on disk under the project root, and they load as
    the transformer [ct] and the regression [lr]. *)
Definition artifacts_on_disk (fs : FileSystem) (root : string) : bool :=
  os_path_isdir fs root && os_path_exists fs (models_dir root)
  && os_path_exists fs (preprocessor_path root)
  && os_path_exists fs (model_path root).

Definition artifacts_load (fs : FileSystem) (root : string)
  (ct : ColumnTransformer) (lr : LinearRegression) : Prop :=
  joblib_load fs (model_path root) = inr (PkLinearRegression lr)
  /\ joblib_load fs (preprocessor_path root) = inr (PkColumnTransformer ct).

(** Shape of a fitted transformer: 5 numeric columns, 3 vocabularies. *)
Definition well_formed (ct : ColumnTransformer) : bool :=
  (length (mean_ (num ct)) =? 5)%nat && (length (scale_ (num ct)) =? 5)%nat
  && (length (categories_ (cat ct)) =? 3)%nat.

(** Number of output columns of a fitted transformer. *)
Definition output_dim (ct : ColumnTransformer) : nat :=
  5 + sum_list (map (fun cats => length cats - 1) (categories_ (cat ct))).

(** The float64 value of a numeric feature of the row, where the row
    holds a finite number under that key. *)
Definition float_of (row : gmap string cell) (f : string) : Q :=
  default 0%Q (to_float (column row f)).

(** The output vector, block by block. *)
Definition scaled_block (sc : StandardScaler) (row : gmap string cell)
  : list Q :=
  zip_with (fun x ms => standardize x (fst ms) (snd ms))
    (map (float_of row) num_features) (zip (mean_ sc) (scale_ sc)).

Definition onehot_block (enc : OneHotEncoder) (row : gmap string cell)
  : list Q :=
  concat (zip_with indicators (categories_ enc) (map (column row) cat_features)).

Definition feature_vector (ct : ColumnTransformer) (row : gmap string cell)
  : list Q :=
  (scaled_block (num ct) row ++ onehot_block (cat ct) row)%list.

(** The raw estimate of the regression on the row. *)
Definition raw_estimate (ct : ColumnTransformer) (lr : LinearRegression)
  (row : gmap string cell) : Q :=
  (dot (coef_ lr) (feature_vector ct row) + intercept_ lr)%Q.

(** Numbers of moderate size: below [2^20] in magnitude, int and float
    agree and the float64 arithmetic of the pipeline is far from overflow
    and from an error of a thousandth. *)
Definition moderate_bound : Q := inject_Z (2 ^ 20).

Definition is_moderate (y : Q) : bool := Qle_bool (Qabs y) moderate_bound.

(** The numeric features of the row less the stored means. *)
Definition shifted_block (sc : StandardScaler) (row : gmap string cell)
  : list Q :=
  zip_with Qminus (map (float_of row) num_features) (mean_ sc).

(** No stored scale is 0, and the numeric features of the row, their
    shifted and their standardized values are of moderate size. *)
Definition moderate_features (ct : ColumnTransformer) (row : gmap string cell)
  : bool :=
  forallb (fun sigma => negb (Qeq_bool sigma 0)) (scale_ (num ct))
  && forallb is_moderate (map (float_of row) num_features)
  && forallb is_moderate (shifted_block (num ct) row)
  && forallb is_moderate (scaled_block (num ct) row).

(** The absolute terms the regression adds up are of moderate size
    together. *)
Definition moderate_estimate (ct : ColumnTransformer) (lr : LinearRegression)
  (row : gmap string cell) : bool :=
  is_moderate
    (Qsum (zip_with (fun w y => Qabs w * Qabs y) (coef_ lr)
             (feature_vector ct row))
     + Qabs (intercept_ lr))%Q.

Definition moderate (ct : ColumnTransformer) (lr : LinearRegression)
  (row : gmap string cell) : bool :=
  moderate_features ct row && moderate_estimate ct lr row.

(** [np.sqrt] to 52 fractional bits, to run the fit on concrete frames. *)
Definition sqrt_approx (q : Q) : Q :=
  Z.sqrt (Qnum q * Zpos (Qden q) * 2 ^ 104) # (Qden q * 2 ^ 52).

(** Both artifacts deserialize. *)
Definition loadable (fs : FileSystem) (root : string) : bool :=
  match joblib_load fs (model_path root),
        joblib_load fs (preprocessor_path root) with
  | inr _, inr _ => true
  | _, _ => false
  end.

(** One column of the frame clipped, whether or not the loop's guard
    fires. *)
Definition clip_column (c : Column) (lo hi : Q) (df : list Student)
  : list Student :=
  map (fun s => set_col c (series_clip lo hi (get_col c s)) s) df.

(** One line of the report, or none when the column needs no correction. *)
Definition report_line (df : list Student) (rule : Column * (Q * Q)) : Report :=
  let '(c, (lo, hi)) := rule in
  let n := error_count c lo hi df in
  if (0 <? n)%nat then [(c, n, (lo, hi))] else [].

(** A row with each of the six columns clipped into its range. *)
Definition clipped (s : Student) : Student :=
  {| gpa := series_clip 1 4 (gpa s);
     major := major s;
     gender := gender s;
     attendance := series_clip 20 32 (attendance s);
     homework_completion := series_clip (3 # 5) 1 (homework_completion s);
     lib_borrow := series_clip 0 10 (lib_borrow s);
     club_participation := club_participation s;
     class_interaction := series_clip 0 20 (class_interaction s);
     exam_score := series_clip 60 100 (exam_score s) |}.


(* ===================================================================== *)
(** ** Concrete frames, artifacts and rows *)
(* ===================================================================== *)

(** [str()] of the project roots used below, a [str] or [None]. *)
Definition str_builtin (o : PyObj) : string :=
  match o with
  | PyStr s => s
  | _ => "None"
  end.

(** A small training frame. *)
Definition df_demo : list Student :=
  [ {| gpa := 18 # 5; major := "人工智能学院"; gender := 1; attendance := 30;
       homework_completion := 49 # 50; lib_borrow := 4; club_participation := 1;
       class_interaction := 18; exam_score := 95 |};
    {| gpa := 19 # 10; major := "文学院"; gender := 0; attendance := 22;
       homework_completion := 13 # 20; lib_borrow := 6; club_participation := 0;
       class_interaction := 2; exam_score := 62 |};
    {| gpa := 27 # 10; major := "文学院"; gender := 1; attendance := 26;
       homework_completion := 4 # 5; lib_borrow := 3; club_participation := 1;
       class_interaction := 10; exam_score := 80 |};
    {| gpa := 3; major := "人工智能学院"; gender := 0; attendance := 28;
       homework_completion := 9 # 10; lib_borrow := 5; club_participation := 0;
       class_interaction := 12; exam_score := 85 |} ]%Q.

(** The same frame with every attendance equal to 26. *)
Definition df_constant : list Student :=
  map (set_col Attendance 26) df_demo.


Definition ct_demo : ColumnTransformer :=
  {| num := scaler_fit sqrt_approx df_demo; cat := encoder_fit df_demo |}.

Definition ct_constant : ColumnTransformer :=
  {| num := scaler_fit sqrt_approx df_constant; cat := encoder_fit df_constant |}.

Definition lr_demo : LinearRegression :=
  {| coef_ := [1 # 10; 1 # 2; 1 # 50; 1 # 10; 3 # 10; 0; 1 # 100; 1 # 20]%Q;
     intercept_ := (5 # 2)%Q |}.

(** A project directory after a training run. *)
Definition fs_trained : FileSystem :=
  {| os_path_isdir := fun p => bool_decide (p ∈ ["/proj"; "/proj/models"]);
     os_path_exists := fun p =>
       bool_decide (p ∈ ["/proj"; "/proj/models";
                         "/proj/models/feature_preprocessor.pkl";
                         "/proj/models/linear_regression.pkl"]);
     joblib_load := fun p =>
       if String.eqb p "/proj/models/linear_regression.pkl"
       then inr (PkLinearRegression lr_demo)
       else if String.eqb p "/proj/models/feature_preprocessor.pkl"
       then inr (PkColumnTransformer ct_demo)
       else inl ("[Errno 2] No such file or directory: '" +:+ p +:+ "'") |}.

(** A project directory in which nothing was trained yet. *)
Definition fs_untrained : FileSystem :=
  {| os_path_isdir := fun p => bool_decide (p ∈ ["/proj"]);
     os_path_exists := fun p => bool_decide (p ∈ ["/proj"]);
     joblib_load := fun p =>
       inl ("[Errno 2] No such file or directory: '" +:+ p +:+ "'") |}.

(** The first example student of [run_prediction_example]. *)
Definition student1 : gmap string cell :=
  <["major" := CStr "人工智能学院"]> (<["gender" := CInt 1]>
  (<["attendance" := CInt 30]> (<["homework_completion" := CFloat (49 # 50)]>
  (<["lib_borrow" := CInt 4]> (<["club_participation" := CInt 1]>
  (<["class_interaction" := CInt 18]> (<["exam_score" := CInt 95]> ∅))))))).

(** The same student from a school the training frame does not hold. *)
Definition student_unseen : gmap string cell :=
  <["major" := CStr "法学院"]> student1.

(** The same student with an attendance beyond 20-32. *)
Definition student_out_of_range : gmap string cell :=
  <["attendance" := CInt 50]> student1.

(** The same student without the [major] key. *)
Definition student_no_major : gmap string cell := delete "major" student1.

(* ===================================================================== *)
(** ** Further rows and file systems *)
(* ===================================================================== *)

(** A project directory whose two artifact files exist but do not
    deserialize. *)
Definition fs_corrupt : FileSystem :=
  {| os_path_isdir := fun p => bool_decide (p ∈ ["/proj"; "/proj/models"]);
     os_path_exists := fun p =>
       bool_decide (p ∈ ["/proj"; "/proj/models";
                         "/proj/models/feature_preprocessor.pkl";
                         "/proj/models/linear_regression.pkl"]);
     joblib_load := fun p => inl "pickle data was truncated" |}.

(** The first example student with a text in place of the attendance. *)
Definition student_text_attendance : gmap string cell :=
  <["attendance" := CStr "thirty"]> student1.

(** The first example student with the attendance of every row of
    [df_constant]. *)
Definition student_attendance_26 : gmap string cell :=
  <["attendance" := CInt 26]> student1.

(** The first example student with a number in place of the school. *)
Definition student_numeric_major : gmap string cell :=
  <["major" := CInt 3]> student1.

(** The first example student with [float("nan")] and with [float("inf")]
    as attendance. *)
Definition student_nan_attendance : gmap string cell :=
  <["attendance" := CNaN]> student1.

Definition student_inf_attendance : gmap string cell :=
  <["attendance" := CInf false]> student1.

(** A row of the training frame as the one-row frame scikit-learn sees. *)
Definition frame_row (s : Student) : gmap string cell :=
  <["major" := CStr (major s)]> (<["gender" := CInt (gender s)]>
  (<["attendance" := CFloat (attendance s)]>
  (<["homework_completion" := CFloat (homework_completion s)]>
  (<["lib_borrow" := CFloat (lib_borrow s)]>
  (<["club_participation" := CInt (club_participation s)]>
  (<["class_interaction" := CFloat (class_interaction s)]>
  (<["exam_score" := CFloat (exam_score s)]> ∅))))))).

(** Every clipped column of the row is within its range. *)
Definition within_rules (s : Student) : bool :=
  forallb (fun rule : Column * (Q * Q) =>
             negb (out_of_range (fst (snd rule)) (snd (snd rule))
                     (get_col (fst rule) s)))
    clip_rules.

(** The first row of the small training frame. *)
Definition first_training_row : Student :=
  {| gpa := 18 # 5; major := "人工智能学院"; gender := 1; attendance := 30;
     homework_completion := 49 # 50; lib_borrow := 4; club_participation := 1;
     class_interaction := 18; exam_score := 95 |}.

(** The small training frame in reverse row order. *)
Definition df_demo_reversed : list Student := rev df_demo.

(* ===================================================================== *)
(** ** The rating of a predicted GPA *)
(* ===================================================================== *)

(** [get_rating] of [run_prediction_example] in main.py. *)
Definition get_rating (gpa : Q) : string :=
  if Qle_bool (7 # 2) gpa then "优秀（建议申请奖学金）"
  else if Qle_bool (5 # 2) gpa then "良好（可参与学术竞赛）"
  else if Qle_bool (3 # 2) gpa then "合格（建议加强作业与出勤）"
  else "需预警（建议联系辅导员辅导）".

(* ===================================================================== *)
(** ** The form of the GUI: _get_input_data and _predict *)
(* ===================================================================== *)

(** What the Tk variables of the form hold: the combobox and the five
    entries are [StringVar]s, the two radio groups are [IntVar]s. *)
Record Form : Type := {
  var_major : string;
  var_gender : Z;
  var_attendance : string;
  var_homework_completion : string;
  var_lib_borrow : string;
  var_club_participation : Z;
  var_class_interaction : string;
  var_exam_score : string
}.

(** The features [range_checks] names, all of them entries. *)
Inductive Entry : Type :=
| EAttendance | EHomeworkCompletion | ELibBorrow | EClassInteraction
| EExamScore.

Definition entry_name (e : Entry) : string :=
  match e with
  | EAttendance => "attendance"
  | EHomeworkCompletion => "homework_completion"
  | ELibBorrow => "lib_borrow"
  | EClassInteraction => "class_interaction"
  | EExamScore => "exam_score"
  end.

(** [self.feat_config[feat]['label']]. *)
Definition entry_label (e : Entry) : string :=
  match e with
  | EAttendance => "出勤次数"
  | EHomeworkCompletion => "作业完成率"
  | ELibBorrow => "周均借阅量"
  | EClassInteraction => "课堂互动次数"
  | EExamScore => "测试成绩"
  end.

(** [self.input_vars[feat].get()] for an entry. *)
Definition entry_text (form : Form) (e : Entry) : string :=
  match e with
  | EAttendance => var_attendance form
  | EHomeworkCompletion => var_homework_completion form
  | ELibBorrow => var_lib_borrow form
  | EClassInteraction => var_class_interaction form
  | EExamScore => var_exam_score form
  end.

(** The conversion and the bounds of one line of [range_checks]. *)
Inductive Builtin : Type := BuiltinInt | BuiltinFloat.

Inductive Bound : Type := IntBound (z : Z) | FloatBound (q : Q).

Definition bound_value (b : Bound) : Q :=
  match b with
  | IntBound z => inject_Z z
  | FloatBound q => q
  end.

Definition range_checks : list (Entry * (Builtin * Bound * Bound)) :=
  [(EAttendance, (BuiltinInt, IntBound 20, IntBound 32));
   (EHomeworkCompletion, (BuiltinFloat, FloatBound (3 # 5), FloatBound 1));
   (ELibBorrow, (BuiltinInt, IntBound 0, IntBound 10));
   (EClassInteraction, (BuiltinInt, IntBound 0, IntBound 20));
   (EExamScore, (BuiltinInt, IntBound 60, IntBound 100))].

(** The entries of an accepted form, as the numbers they were read as. *)
Definition entries_within (row : gmap string cell) : Prop :=
  forall feat dtype min_val max_val,
    In (feat, (dtype, min_val, max_val)) range_checks ->
    (bound_value min_val <= float_of row (entry_name feat))%Q
    /\ (float_of row (entry_name feat) <= bound_value max_val)%Q.

(** What [_predict] leaves on the screen. *)
Inductive Outcome : Type :=
| InputError (text : string)
| ModelMissing (text : string)
| PredictFailed (e : Exception)
| Predicted (pred_gpa : Q) (rating : string).

Section Gui.
(** [int(text)] and [float(text)]: the number, or the text of the
    ValueError; texts that [float] reads as nan or inf are left out. *)
Variable py_int : string -> string + Z.
Variable py_float : string -> string + Q.
(** [str()] of a float, as an f-string prints a bound. *)
Variable str_float : Q -> string.
Variable py_str : PyObj -> string.
Variable fs : FileSystem.
(** [PROJECT_ROOT], the directory of gui.py. *)
Variable PROJECT_ROOT : string.

Definition show_bound (b : Bound) : string :=
  match b with
  | IntBound z => pretty z
  | FloatBound q => str_float q
  end.

(** [dtype(input_data[feat])]. *)
Definition convert (dtype : Builtin) (text : string) : string + (cell * Q) :=
  match dtype with
  | BuiltinInt =>
      match py_int text with
      | inl e => inl e
      | inr z => inr (CInt z, inject_Z z)
      end
  | BuiltinFloat =>
      match py_float text with
      | inl e => inl e
      | inr q => inr (CFloat q, q)
      end
  end.

(** The loop over [range_checks]; [inl] carries the text of the ValueError
    that leaves it. *)
Fixpoint check_ranges (form : Form) (input_data : gmap string cell)
  (checks : list (Entry * (Builtin * Bound * Bound)))
  : string + gmap string cell :=
  match checks with
  | [] => inr input_data
  | (feat, (dtype, min_val, max_val)) :: checks' =>
      match convert dtype (entry_text form feat) with
      | inl e => inl e
      | inr (val, x) =>
          if negb (Qle_bool (bound_value min_val) x
                   && Qle_bool x (bound_value max_val))
          then inl (entry_label feat +:+ "必须在" +:+ show_bound min_val
                      +:+ "-" +:+ show_bound max_val +:+ "之间")
          else check_ranges form (<[entry_name feat := val]> input_data) checks'
      end
  end.

(** [_get_input_data]: the feature dict, or the text of the error box
    shown before [None] is returned. *)
Definition gui_get_input_data (form : Form) : string + gmap string cell :=
  let input_data : gmap string cell :=
    <["exam_score" := CStr (var_exam_score form)]>
    (<["class_interaction" := CStr (var_class_interaction form)]>
    (<["club_participation" := CInt (var_club_participation form)]>
    (<["lib_borrow" := CStr (var_lib_borrow form)]>
    (<["homework_completion" := CStr (var_homework_completion form)]>
    (<["attendance" := CStr (var_attendance form)]>
    (<["gender" := CInt (var_gender form)]>
    (<["major" := CStr (var_major form)]> ∅))))))) in
  match check_ranges form input_data range_checks with
  | inl e => inl ("特征输入不合法：" +:+ e +:+ newline +:+ "请检查后重新输入！")
  | inr input_data => inr input_data
  end.

(** The rating computed in [_predict]. *)
Definition gui_rating (pred_gpa : Q) : string :=
  if Qle_bool (7 # 2) pred_gpa then "优秀（建议申请奖学金）"
  else if Qle_bool (5 # 2) pred_gpa then "良好（可参与学术竞赛）"
  else if Qle_bool (3 # 2) pred_gpa then "合格（建议加强作业与出勤）"
  else "需预警（建议联系辅导员辅导）".

(** [_predict]. *)
Definition gui_predict (form : Form) : Outcome :=
  match gui_get_input_data form with
  | inl text => InputError text
  | inr input_data =>
      match predict_gpa py_str fs (PyDict input_data) (PyStr PROJECT_ROOT) with
      | Raise (FileNotFoundError e) =>
          ModelMissing ("未找到模型/流水线：" +:+ e +:+ newline
                          +:+ "请先运行python main.py训练模型！")
      | Raise e => PredictFailed e
      | Return pred_gpa => Predicted pred_gpa (gui_rating pred_gpa)
      end
  end.
End Gui.

(** [int()] and [float()] on the texts of the form below. *)
Definition int_builtin (text : string) : string + Z :=
  match list_find (fun p : string * Z => fst p = text)
          [("30", 30%Z); ("4", 4%Z); ("18", 18%Z); ("95", 95%Z); ("50", 50%Z)] with
  | Some (_, (_, z)) => inr z
  | None => inl ("invalid literal for int() with base 10: '" +:+ text +:+ "'")
  end.

Definition float_builtin (text : string) : string + Q :=
  match list_find (fun p : string * Q => fst p = text)
          [("0.98", 49 # 50); ("0.5", 1 # 2)] with
  | Some (_, (_, q)) => inr q
  | None => inl ("could not convert string to float: '" +:+ text +:+ "'")
  end.

(** [str()] of the two float bounds of [range_checks]. *)
Definition float_str_builtin (q : Q) : string :=
  if Qeq_bool q (3 # 5) then "0.6" else "1.0".

(** The form filled in with the first example student. *)
Definition form1 : Form :=
  {| var_major := "人工智能学院"; var_gender := 1; var_attendance := "30";
     var_homework_completion := "0.98"; var_lib_borrow := "4";
     var_club_participation := 1; var_class_interaction := "18";
     var_exam_score := "95" |}.

(* ===================================================================== *)
(** ** evaluate_model *)
(* ===================================================================== *)

(** A numpy array of finite values, of one or of two dimensions. *)
Inductive ndarray : Type :=
| Array1 (xs : list Q)
| Array2 (rows : list (list Q)).

Definition len (a : ndarray) : nat :=
  match a with
  | Array1 xs => length xs
  | Array2 rows => length rows
  end.

Definition ndim (a : ndarray) : nat :=
  match a with
  | Array1 _ => 1
  | Array2 _ => 2
  end.

(** scikit-learn's regression metrics on two vectors of one length. *)
Definition mean_absolute_error (y_true y_pred : list Q) : Q :=
  mean (zip_with (fun t p => Qabs (p - t)) y_true y_pred).

Definition mean_squared_error (y_true y_pred : list Q) : Q :=
  mean (zip_with (fun t p => ((t - p) * (t - p))%Q) y_true y_pred).

(** [r2_score]; [None] is the nan it gives for fewer than two samples. *)
Definition r2_score (y_true y_pred : list Q) : option Q :=
  if (length y_pred <? 2)%nat then None
  else
    let numerator :=
      Qsum (zip_with (fun t p => ((t - p) * (t - p))%Q) y_true y_pred) in
    let mu := mean y_true in
    let denominator :=
      Qsum (map (fun t => ((t - mu) * (t - mu))%Q) y_true) in
    if negb (Qeq_bool denominator 0) then Some (1 - numerator / denominator)%Q
    else if negb (Qeq_bool numerator 0) then Some 0%Q
    else Some 1%Q.

(** The dict [evaluate_model] returns. *)
Record Metrics : Type := {
  metric_model : string;
  metric_MAE : Q;
  metric_RMSE : Q;
  metric_R2 : option Q
}.

Section Evaluate.
(** [np.sqrt] on float64, left abstract. *)
Variable fsqrt : Q -> Q.

Definition evaluate_model (y_true y_pred : ndarray) (model_name : string)
  : result Metrics :=
  if negb (len y_true =? len y_pred)%nat
  then Raise (ValueError ("❌ 真实值与预测值长度不匹配：" +:+ pretty (len y_true)
                            +:+ " vs " +:+ pretty (len y_pred)))
  else
    match y_true, y_pred with
    | Array1 t, Array1 p =>
        match t with
        | [] =>
            Raise (ValueError
                     "Found array with 0 sample(s) (shape=(0,)) while a minimum of 1 is required.")
        | _ :: _ =>
            let mae := mean_absolute_error t p in
            let rmse := fsqrt (mean_squared_error t p) in
            let r2 := r2_score t p in
            Return {| metric_model := model_name; metric_MAE := mae;
                      metric_RMSE := rmse; metric_R2 := r2 |}
        end
    | _, _ => Raise (ValueError "❌ 真实值和预测值必须为一维数组")
    end.
End Evaluate.

(** The same form with an attendance of 50. *)
Definition form_out_of_range : Form :=
  {| var_major := "人工智能学院"; var_gender := 1; var_attendance := "50";
     var_homework_completion := "0.98"; var_lib_borrow := "4";
     var_club_participation := 1; var_class_interaction := "18";
     var_exam_score := "95" |}.

(* ===================================================================== *)
(** * Properties *)
(* ===================================================================== *)

(** ** Clamping and rounding *)

Lemma np_clip_bounds (x lo hi : Q) :
  (lo <= hi)%Q -> (lo <= np_clip x lo hi)%Q /\ (np_clip x lo hi <= hi)%Q.
Proof.
  intros Hlh. unfold np_clip, np_minimum, np_maximum.
  destruct (Qle_bool x lo) eqn:E1.
  - destruct (Qle_bool lo hi) eqn:E2.
    + split; [apply Qle_refl | assumption].
    + split; [assumption | apply Qle_refl].
  - destruct (Qle_bool x hi) eqn:E2.
    + apply Qle_bool_iff in E2. split; [| assumption].
      destruct (Qlt_le_dec lo x) as [Hlt | Hle].
      * apply Qlt_le_weak; assumption.
      * apply Qle_bool_iff in Hle. congruence.
    + split; [assumption | apply Qle_refl].
Qed.


Lemma rint_floor_le (q : Q) : (Qfloor q <= rint q)%Z.
Proof.
  unfold rint. destruct (q - inject_Z (Qfloor q) ?= 1 # 2)%Q; [| lia | lia].
  destruct (Z.even (Qfloor q)); lia.
Qed.

Lemma rint_bounds (a b : Z) (q : Q) :
  (inject_Z a <= q)%Q -> (q <= inject_Z b)%Q -> (a <= rint q <= b)%Z.
Proof.
  intros Ha Hb. split.
  - etransitivity; [| apply rint_floor_le].
    rewrite <- (Qfloor_Z a). apply Qfloor_resp_le; assumption.
  - assert (Hf : (Qfloor q <= b)%Z).
    { rewrite <- (Qfloor_Z b). apply Qfloor_resp_le; assumption. }
    destruct (Z.eq_dec (Qfloor q) b) as [Heq | Hne].
    + unfold rint. rewrite Heq.
      assert (Hlt : (q - inject_Z b < 1 # 2)%Q).
      { apply Qle_lt_trans with (y := 0%Q); [| reflexivity].
        apply (Qplus_le_l _ _ (inject_Z b)). ring_simplify. assumption. }
      rewrite Qlt_alt in Hlt. rewrite Hlt. lia.
    + assert (Hr : (rint q <= Qfloor q + 1)%Z).
      { unfold rint.
        destruct (q - inject_Z (Qfloor q) ?= 1 # 2)%Q; [| lia | lia].
        destruct (Z.even (Qfloor q)); lia. }
      lia.
Qed.

Lemma round2_bounds (x : Q) :
  (1 <= x)%Q -> (x <= 4)%Q -> (1 <= round2 x)%Q /\ (round2 x <= 4)%Q.
Proof.
  intros H1 H4. unfold round2.
  assert (Hr : (100 <= rint (x * 100) <= 400)%Z).
  { apply rint_bounds.
    - change (inject_Z 100) with (1 * 100)%Q.
      apply Qmult_le_compat_r; [assumption | discriminate].
    - change (inject_Z 400) with (4 * 100)%Q.
      apply Qmult_le_compat_r; [assumption | discriminate]. }
  destruct Hr as [Hlo Hhi]. split.
  - apply Qle_shift_div_l; [reflexivity |].
    change (1 * 100)%Q with (inject_Z 100). rewrite <- Zle_Qle. assumption.
  - apply Qle_shift_div_r; [reflexivity |].
    change (4 * 100)%Q with (inject_Z 400). rewrite <- Zle_Qle. assumption.
Qed.

(** The value [predict_gpa] hands back for a raw estimate. *)
Lemma clamp_round_bounds (raw : Q) :
  (1 <= round2 (np_clip raw 1 4))%Q /\ (round2 (np_clip raw 1 4) <= 4)%Q.
Proof.
  destruct (np_clip_bounds raw 1 4) as [H1 H4]; [discriminate |].
  apply round2_bounds; assumption.
Qed.






(** ** Transform of a row *)

Lemma missing_columns_nil (names : list string) (row : gmap string cell) :
  forallb (fun f => bool_decide (is_Some (row !! f))) names = true ->
  missing_columns names row = [].
Proof.
  unfold missing_columns. induction names as [| f names IH]; simpl; [reflexivity |].
  intros H. apply andb_prop in H as [Hf Hrest].
  apply bool_decide_eq_true in Hf. destruct Hf as [c Hc].
  rewrite filter_cons_False; [auto | congruence].
Qed.

Lemma has_all_keys_lookup (row : gmap string cell) (f : string) :
  has_all_keys row = true -> f ∈ required_features -> is_Some (row !! f).
Proof.
  unfold has_all_keys. rewrite forallb_forall. intros H Hf.
  apply list_elem_of_In in Hf. apply H in Hf.
  apply bool_decide_eq_true in Hf. exact Hf.
Qed.

Lemma selected_in_required :
  Forall (fun f => f ∈ required_features) (num_features ++ cat_features)%list.
Proof. repeat constructor; vm_compute; set_solver. Qed.

Lemma selected_present (row : gmap string cell) :
  has_all_keys row = true ->
  missing_columns (num_features ++ cat_features)%list row = [].
Proof.
  intros Hkeys. apply missing_columns_nil.
  apply forallb_forall. intros f Hf. apply bool_decide_eq_true.
  apply has_all_keys_lookup; [assumption |].
  pose proof selected_in_required as Hall.
  rewrite Forall_forall in Hall. apply Hall, list_elem_of_In, Hf.
Qed.

Lemma finite_number_numeric (c : cell) :
  is_finite_number c = true -> is_numeric_dtype (infer_dtype c) = true.
Proof.
  unfold is_finite_number.
  destruct c as [z | q | b | s | | | n]; try reflexivity; try discriminate.
  unfold to_float.
  destruct (is_numeric_dtype (infer_dtype (CInt z))); [reflexivity | discriminate].
Qed.

Lemma finite_number_value (c : cell) :
  is_finite_number c = true -> to_float c = Some (default 0%Q (to_float c)).
Proof.
  unfold is_finite_number. destruct (to_float c); [reflexivity | discriminate].
Qed.

Lemma to_float64_finite (c : cell) (x : Q) :
  to_float c = Some x -> to_float64 c = Some (Finite x).
Proof.
  intros H. destruct c as [z | q | b | s | | | n]; try discriminate;
    cbn [to_float64]; rewrite H; reflexivity.
Qed.

Lemma numeric_finite_typed (row : gmap string cell) :
  numeric_finite row = true -> numeric_typed row = true.
Proof.
  unfold numeric_finite, numeric_typed. rewrite !forallb_forall.
  intros H f Hf. apply finite_number_numeric, H, Hf.
Qed.

Lemma to_floats_finite (row : gmap string cell) (feats : list string) :
  forallb (fun f => is_finite_number (column row f)) feats = true ->
  to_floats row feats = Return (map Finite (map (float_of row) feats)).
Proof.
  induction feats as [| f feats IH]; simpl; [reflexivity |].
  intros H. apply andb_prop in H as [Hf Hrest].
  rewrite (to_float64_finite _ _ (finite_number_value _ Hf)), (IH Hrest).
  reflexivity.
Qed.

Lemma to_floats_length (row : gmap string cell) (feats : list string)
  (xs : list float64) :
  to_floats row feats = Return xs -> length xs = length feats.
Proof.
  revert xs. induction feats as [| f feats IH]; simpl; intros xs H.
  - injection H as <-. reflexivity.
  - destruct (to_float64 (column row f)) as [x |]; [| discriminate].
    destruct (to_floats row feats) as [ys | e]; simpl in H; [| discriminate].
    injection H as <-. simpl. rewrite (IH ys eq_refl). reflexivity.
Qed.

Lemma check_numeric_typed (row : gmap string cell) (feats : list string) :
  forallb (fun f => is_numeric_dtype (infer_dtype (column row f))) feats = true ->
  check_numeric row feats = Return tt.
Proof.
  induction feats as [| f feats IH]; simpl; [reflexivity |].
  intros H. apply andb_prop in H as [Hf Hrest]. rewrite Hf. simpl. auto.
Qed.

Lemma existsb_is_inf_Finite (xs : list Q) : existsb is_inf (map Finite xs) = false.
Proof. induction xs as [| x xs IH]; [reflexivity | exact IH]. Qed.

Lemma finite_values_Finite (xs : list Q) : finite_values (map Finite xs) = Some xs.
Proof.
  induction xs as [| x xs IH]; [reflexivity |].
  cbn [map finite_values]. rewrite IH. reflexivity.
Qed.

Lemma known_infinity (cats : list cell) (negative : bool) :
  known cats (CInf negative) = false.
Proof.
  unfold known. induction cats as [| c cats IH]; [reflexivity |].
  cbn [existsb]. rewrite IH. destruct c; reflexivity.
Qed.

Lemma known_not_infinity (cats : list cell) (v : cell) :
  known cats v = true -> is_infinity v = false.
Proof.
  destruct v; try reflexivity. rewrite known_infinity. discriminate.
Qed.

(** Shape of a well-formed transformer, as an inversion principle. *)
Lemma well_formed_inv (ct : ColumnTransformer) :
  well_formed ct = true ->
  exists m1 m2 m3 m4 m5 s1 s2 s3 s4 s5 c0 c1 c2,
    ct = {| num := {| mean_ := [m1; m2; m3; m4; m5];
                      scale_ := [s1; s2; s3; s4; s5] |};
            cat := {| categories_ := [c0; c1; c2] |} |}.
Proof.
  destruct ct as [[ms ss] [cs]]. unfold well_formed. simpl. intros H.
  apply andb_prop in H as [H Hc]. apply andb_prop in H as [Hm Hs].
  apply Nat.eqb_eq in Hm, Hs, Hc.
  destruct ms as [| m1 [| m2 [| m3 [| m4 [| m5 [| ? ?]]]]]]; try discriminate.
  destruct ss as [| s1 [| s2 [| s3 [| s4 [| s5 [| ? ?]]]]]]; try discriminate.
  destruct cs as [| c0 [| c1 [| c2 [| ? ?]]]]; try discriminate.
  repeat eexists.
Qed.

(** The three categorical values pass the loop of the encoder. *)
Lemma all_seen_inv (c0 c1 c2 : list cell) (num : StandardScaler)
  (row : gmap string cell) :
  all_seen {| num := num; cat := {| categories_ := [c0; c1; c2] |} |} row = true ->
  first_refused 0 [c0; c1; c2] (map (column row) cat_features) = None
  /\ existsb is_infinity (map (column row) cat_features) = false.
Proof.
  unfold all_seen, seen.
  cbn [cat categories_ lookup list_lookup cat_features map first_refused existsb].
  intros H. apply andb_prop in H as [H H2]. apply andb_prop in H as [H0 H1].
  apply andb_prop in H0 as [N0 K0]. apply andb_prop in H1 as [N1 K1].
  apply andb_prop in H2 as [N2 K2].
  apply negb_true_iff in N0, N1, N2.
  rewrite N0, K0, N1, K1, N2, K2.
  rewrite (known_not_infinity _ _ K0), (known_not_infinity _ _ K1),
    (known_not_infinity _ _ K2).
  split; reflexivity.
Qed.

Lemma transform_returns (ct : ColumnTransformer) (row : gmap string cell) :
  well_formed ct = true -> has_all_keys row = true ->
  numeric_finite row = true -> all_seen ct row = true ->
  transform ct row = Return (map Finite (feature_vector ct row)).
Proof.
  intros Hwf Hkeys Hnum Hseen.
  destruct (well_formed_inv ct Hwf)
    as (m1 & m2 & m3 & m4 & m5 & s1 & s2 & s3 & s4 & s5 & c0 & c1 & c2 & ->).
  apply all_seen_inv in Hseen as [Hloop Hinf].
  unfold transform. rewrite selected_present by assumption.
  rewrite (to_floats_finite row num_features Hnum). cbn [bind].
  unfold scaler_transform. rewrite existsb_is_inf_Finite.
  cbn [num mean_ scale_ length map num_features Nat.eqb negb bind].
  unfold encoder_transform. cbn [cat categories_]. rewrite Hinf, Hloop.
  reflexivity.
Qed.

Lemma length_indicators (cats : list cell) (v : cell) :
  length (indicators cats v) = length cats - 1.
Proof.
  unfold indicators. rewrite length_map. destruct cats; simpl; lia.
Qed.

Lemma length_feature_vector (ct : ColumnTransformer) (row : gmap string cell) :
  well_formed ct = true -> length (feature_vector ct row) = output_dim ct.
Proof.
  intros Hwf.
  destruct (well_formed_inv ct Hwf)
    as (m1 & m2 & m3 & m4 & m5 & s1 & s2 & s3 & s4 & s5 & c0 & c1 & c2 & ->).
  unfold feature_vector, output_dim, scaled_block, onehot_block. simpl.
  rewrite !length_app, !length_indicators. simpl. lia.
Qed.

(** Whatever the row holds, a vector that Transform returns has the output
    dimension of the transformer. *)
Lemma transform_length (ct : ColumnTransformer) (row : gmap string cell)
  (v : list float64) :
  well_formed ct = true -> transform ct row = Return v ->
  length v = output_dim ct.
Proof.
  intros Hwf.
  destruct (well_formed_inv ct Hwf)
    as (m1 & m2 & m3 & m4 & m5 & s1 & s2 & s3 & s4 & s5 & c0 & c1 & c2 & ->).
  unfold transform.
  destruct (missing_columns _ row) as [| ? ?]; [| discriminate].
  destruct (to_floats row num_features) as [xs | e] eqn:Ex; [| discriminate].
  apply to_floats_length in Ex. cbn [bind].
  unfold scaler_transform. destruct (existsb is_inf xs); [discriminate |].
  destruct (negb _); [discriminate |]. cbn [bind].
  unfold encoder_transform. destruct (existsb is_infinity _); [discriminate |].
  destruct (negb _); [discriminate |].
  destruct (first_refused _ _ _); [discriminate |]. cbn [bind].
  intros [= <-].
  destruct xs as [| x1 [| x2 [| x3 [| x4 [| x5 [| ? ?]]]]]]; try discriminate.
  unfold output_dim. cbn.
  rewrite length_map, !length_app, !length_indicators. simpl. lia.
Qed.

(** ** The vocabulary: sorted, without repetition *)

Section UniqueFacts.
Context {A : Type} (cmp : A -> A -> comparison).
Hypothesis cmp_eq : forall x y, cmp x y = Eq <-> x = y.
Hypothesis cmp_antisym : forall x y, cmp x y = CompOpp (cmp y x).
Hypothesis cmp_trans :
  forall x y z, cmp x y = Lt -> cmp y z = Lt -> cmp x z = Lt.

Lemma elem_of_insert_unique (x y : A) (l : list A) :
  y ∈ insert_unique cmp x l <-> y = x \/ y ∈ l.
Proof.
  induction l as [| z l IH]; simpl.
  - rewrite list_elem_of_singleton, elem_of_nil. tauto.
  - destruct (cmp x z) eqn:E.
    + apply cmp_eq in E. subst z. rewrite elem_of_cons. tauto.
    + rewrite elem_of_cons. tauto.
    + rewrite elem_of_cons, IH, elem_of_cons. tauto.
Qed.

Lemma elem_of_np_unique (x : A) (l : list A) :
  x ∈ np_unique cmp l <-> x ∈ l.
Proof.
  induction l as [| y l IH]; simpl; [reflexivity |].
  rewrite elem_of_insert_unique, IH, elem_of_cons. reflexivity.
Qed.


Lemma insert_unique_ascending (x : A) (l : list A) :
  ascending cmp l -> ascending cmp (insert_unique cmp x l).
Proof.
  unfold ascending. induction 1 as [| z l Hl IH Hz]; simpl.
  - repeat constructor.
  - destruct (cmp x z) eqn:E.
    + constructor; assumption.
    + constructor; [constructor; assumption |].
      constructor; [assumption |].
      eapply Forall_impl; [exact Hz |]. simpl. intros a Ha. eauto.
    + constructor; [assumption |].
      apply Forall_forall. intros a Ha.
      apply elem_of_insert_unique in Ha as [-> | Ha].
      * rewrite cmp_antisym, E. reflexivity.
      * rewrite Forall_forall in Hz. auto.
Qed.

Lemma np_unique_ascending (l : list A) : ascending cmp (np_unique cmp l).
Proof.
  induction l as [| x l IH]; simpl; [constructor |].
  apply insert_unique_ascending, IH.
Qed.

Lemma ascending_NoDup (l : list A) : ascending cmp l -> NoDup l.
Proof.
  induction 1 as [| z l Hl IH Hz]; constructor; [| assumption].
  intros Hin. rewrite Forall_forall in Hz. specialize (Hz z Hin).
  assert (Hrefl : cmp z z = Eq) by (apply cmp_eq; reflexivity).
  congruence.
Qed.

Lemma np_unique_NoDup (l : list A) : NoDup (np_unique cmp l).
Proof. apply ascending_NoDup, np_unique_ascending. Qed.
End UniqueFacts.

Lemma string_compare_trans (x y z : string) :
  String.compare x y = Lt -> String.compare y z = Lt -> String.compare x z = Lt.
Proof.
  intros H1 H2. apply String_as_OT.cmp_lt.
  apply String_as_OT.lt_trans with (y := y); apply String_as_OT.cmp_lt; assumption.
Qed.

Lemma Z_compare_trans (x y z : Z) :
  (x ?= y)%Z = Lt -> (y ?= z)%Z = Lt -> (x ?= z)%Z = Lt.
Proof. rewrite !Z.compare_lt_iff. lia. Qed.

(** The vocabulary holds each distinct value of the column once. *)
Lemma length_unique_strings (l : list string) :
  length (np_unique String.compare l) = size (list_to_set l : gset string).
Proof.
  rewrite <- (size_list_to_set (C := gset string) (np_unique String.compare l)).
  - f_equal. apply set_eq. intros x. rewrite !elem_of_list_to_set.
    apply (elem_of_np_unique _ String_as_OT.cmp_eq).
  - apply np_unique_NoDup.
    + apply String_as_OT.cmp_eq.
    + apply String.compare_antisym.
    + apply string_compare_trans.
Qed.

Lemma length_unique_ints (l : list Z) :
  length (np_unique Z.compare l) = size (list_to_set l : gset Z).
Proof.
  rewrite <- (size_list_to_set (C := gset Z) (np_unique Z.compare l)).
  - f_equal. apply set_eq. intros x. rewrite !elem_of_list_to_set.
    apply (elem_of_np_unique _ Z.compare_eq_iff).
  - apply np_unique_NoDup.
    + apply Z.compare_eq_iff.
    + intros x y. apply Z.compare_antisym.
    + apply Z_compare_trans.
Qed.

(** ** The path of predict_gpa through its checks *)

Section PredictFacts.
Variable py_str : PyObj -> string.
Variable fs : FileSystem.

Lemma artifacts_on_disk_inv (root : string) :
  artifacts_on_disk fs root = true ->
  os_path_isdir fs root = true /\ os_path_exists fs (models_dir root) = true
  /\ os_path_exists fs (preprocessor_path root) = true
  /\ os_path_exists fs (model_path root) = true.
Proof.
  unfold artifacts_on_disk. intros H.
  apply andb_prop in H as [H H4]. apply andb_prop in H as [H H3].
  apply andb_prop in H as [H1 H2]. auto.
Qed.

(** With both artifacts on disk, [predict_gpa] gets as far as the [try]
    block. *)
Lemma predict_gpa_on_disk (root : string) (row : gmap string cell) :
  artifacts_on_disk fs root = true ->
  predict_gpa py_str fs (PyDict row) (PyStr root) =
    let* loaded := load_artifacts fs (model_path root) (preprocessor_path root) in
    match missing_features row with
    | (_ :: _) as missing => Raise (ValueError (missing_message missing))
    | [] =>
        let* _checked := check_numeric row numeric_features in
        let* input_processed := call_transform (snd loaded) row in
        let* pred_gpa := call_predict (fst loaded) input_processed in
        Return (round2 (np_clip pred_gpa 1 4))
    end.
Proof.
  intros H. apply artifacts_on_disk_inv in H as (H1 & H2 & H3 & H4).
  unfold predict_gpa, valid_root, root_path.
  fold (models_dir root). fold (model_path root). fold (preprocessor_path root).
  rewrite H1, H2, H3, H4. reflexivity.
Qed.

Lemma predict_finite (lr : LinearRegression) (xs : list Q) :
  length xs = length (coef_ lr) ->
  predict lr (map Finite xs) = Return (dot (coef_ lr) xs + intercept_ lr)%Q.
Proof.
  intros H. unfold predict. rewrite finite_values_Finite, H, Nat.eqb_refl.
  reflexivity.
Qed.

Lemma predict_gpa_returns (root : string) (row : gmap string cell)
  (ct : ColumnTransformer) (lr : LinearRegression) :
  artifacts_on_disk fs root = true -> artifacts_load fs root ct lr ->
  well_formed ct = true -> length (coef_ lr) = output_dim ct ->
  has_all_keys row = true -> numeric_finite row = true ->
  all_seen ct row = true ->
  transform ct row = Return (map Finite (feature_vector ct row))
  /\ predict lr (map Finite (feature_vector ct row))
     = Return (raw_estimate ct lr row)
  /\ predict_gpa py_str fs (PyDict row) (PyStr root) =
       Return (round2 (np_clip (raw_estimate ct lr row) 1 4)).
Proof.
  intros Hdisk [Hm Hp] Hwf Hlen Hkeys Hnum Hseen.
  assert (Ht : transform ct row = Return (map Finite (feature_vector ct row)))
    by (apply transform_returns; assumption).
  assert (Hr : predict lr (map Finite (feature_vector ct row))
               = Return (raw_estimate ct lr row)).
  { apply predict_finite. rewrite length_feature_vector, Hlen by assumption.
    reflexivity. }
  split; [exact Ht |]. split; [exact Hr |].
  rewrite predict_gpa_on_disk by assumption.
  unfold load_artifacts. rewrite Hm, Hp. cbn [bind fst snd].
  change (missing_features row) with (missing_columns required_features row).
  rewrite missing_columns_nil by exact Hkeys.
  rewrite (check_numeric_typed row numeric_features
             (numeric_finite_typed row Hnum)).
  cbn [bind call_transform call_predict].
  rewrite Ht. cbn [bind]. rewrite Hr. reflexivity.
Qed.

Lemma missing_features_nonempty (row : gmap string cell) :
  has_all_keys row = false -> missing_features row <> [].
Proof.
  intros H Hnil.
  assert (Hall : has_all_keys row = true); [| congruence].
  unfold has_all_keys. apply forallb_forall. intros f Hf.
  apply bool_decide_eq_true. destruct (row !! f) as [c |] eqn:E; [eauto |].
  exfalso. apply list_elem_of_In in Hf.
  assert (Hin : f ∈ missing_features row).
  { unfold missing_features.
    apply (list_elem_of_filter (fun f => row !! f = None)). auto. }
  rewrite Hnil in Hin. inversion Hin.
Qed.

Lemma predict_gpa_missing (root : string) (row : gmap string cell) :
  artifacts_on_disk fs root = true -> loadable fs root = true ->
  has_all_keys row = false ->
  predict_gpa py_str fs (PyDict row) (PyStr root) =
    Raise (ValueError (missing_message (missing_features row))).
Proof.
  intros Hdisk Hload Hkeys.
  rewrite predict_gpa_on_disk by assumption.
  unfold loadable in Hload. unfold load_artifacts.
  destruct (joblib_load fs (model_path root)) as [? | m]; [discriminate |].
  destruct (joblib_load fs (preprocessor_path root)) as [? | p]; [discriminate |].
  cbn [bind fst snd]. pose proof (missing_features_nonempty row Hkeys) as Hne.
  destruct (missing_features row); [congruence | reflexivity].
Qed.
End PredictFacts.

(** ** Messages *)

Lemma prefix_refl (s : string) : String.prefix s s = true.
Proof.
  apply String.prefix_correct. induction s as [| c s IH]; simpl; [reflexivity |].
  rewrite IH. reflexivity.
Qed.

Lemma mentions_self (needle : string) : mentions needle needle = true.
Proof.
  unfold mentions. destruct needle as [| c s]; [reflexivity |].
  cbn [String.index]. rewrite prefix_refl. reflexivity.
Qed.

Lemma mentions_append (needle before text : string) :
  mentions needle text = true -> mentions needle (before +:+ text) = true.
Proof.
  unfold mentions. intros H. induction before as [| c p IH]; [exact H |].
  change (String c p +:+ text) with (String c (p +:+ text)).
  cbn [String.index].
  destruct (String.prefix needle (String c (p +:+ text))); [reflexivity |].
  destruct (String.index 0 needle (p +:+ text)); [reflexivity | discriminate].
Qed.

(** ** The outlier loop *)


Lemma set_col_get_col (c : Column) (s : Student) : set_col c (get_col c s) s = s.
Proof. destruct s, c; reflexivity. Qed.

Lemma get_col_set_col (c : Column) (v : Q) (s : Student) : get_col c (set_col c v s) = v.
Proof. destruct c; reflexivity. Qed.

Lemma get_col_set_col_other (c c' : Column) (v : Q) (s : Student) :
  c <> c' -> get_col c' (set_col c v s) = get_col c' s.
Proof. destruct c, c'; intros H; try reflexivity; congruence. Qed.

Lemma series_clip_in_range (lo hi x : Q) :
  out_of_range lo hi x = false -> series_clip lo hi x = x.
Proof.
  unfold out_of_range, series_clip. intros H.
  apply orb_false_elim in H as [H1 H2]. rewrite H1, H2. reflexivity.
Qed.

Lemma error_count_zero (c : Column) (lo hi : Q) (df : list Student) :
  error_count c lo hi df = 0%nat -> clip_column c lo hi df = df.
Proof.
  unfold error_count, clip_column. induction df as [| s df IH]; [reflexivity |].
  destruct (out_of_range lo hi (get_col c s)) eqn:E.
  - rewrite filter_cons_True by assumption. discriminate.
  - rewrite filter_cons_False by congruence. intros H. simpl.
    rewrite series_clip_in_range, set_col_get_col, IH by assumption. reflexivity.
Qed.

Lemma clip_step_frame (df : list Student) (printed : Report)
  (c : Column) (lo hi : Q) :
  fst (clip_step (df, printed) (c, (lo, hi))) = clip_column c lo hi df.
Proof.
  unfold clip_step. destruct (0 <? error_count c lo hi df)%nat eqn:E.
  - reflexivity.
  - apply Nat.ltb_ge in E. simpl. symmetry. apply error_count_zero. lia.
Qed.

Lemma error_count_other (c c' : Column) (lo hi lo' hi' : Q) (df : list Student) :
  c <> c' ->
  error_count c' lo' hi' (clip_column c lo hi df) = error_count c' lo' hi' df.
Proof.
  intros Hne. unfold error_count, clip_column.
  induction df as [| s df IH]; [reflexivity |]. simpl.
  destruct (out_of_range lo' hi' (get_col c' s)) eqn:E.
  - rewrite !filter_cons_True; [simpl; congruence | assumption |].
    rewrite get_col_set_col_other by assumption. assumption.
  - rewrite !filter_cons_False; [assumption | congruence |].
    rewrite get_col_set_col_other by assumption. congruence.
Qed.


Lemma report_line_other (c c' : Column) (lo hi : Q) (r : Q * Q)
  (df : list Student) :
  c <> c' -> report_line (clip_column c lo hi df) (c', r) = report_line df (c', r).
Proof.
  intros Hne. destruct r as [lo' hi']. unfold report_line.
  rewrite error_count_other by assumption. reflexivity.
Qed.

Lemma clip_step_report (df : list Student) (printed : Report)
  (rule : Column * (Q * Q)) :
  snd (clip_step (df, printed) rule) = (printed ++ report_line df rule)%list.
Proof.
  destruct rule as [c [lo hi]]. unfold clip_step, report_line.
  destruct (0 <? error_count c lo hi df)%nat; simpl; [reflexivity |].
  rewrite app_nil_r. reflexivity.
Qed.

Lemma clip_step_eq (df : list Student) (printed : Report)
  (c : Column) (lo hi : Q) :
  clip_step (df, printed) (c, (lo, hi)) =
    (clip_column c lo hi df, (printed ++ report_line df (c, (lo, hi)))%list).
Proof.
  rewrite <- clip_step_frame with (printed := printed).
  rewrite <- clip_step_report. destruct (clip_step _ _); reflexivity.
Qed.


Lemma clip_outliers_eq (df : list Student) :
  clip_outliers df = (map clipped df, flat_map (report_line df) clip_rules).
Proof.
  unfold clip_outliers, clip_rules. cbn [fold_left].
  rewrite !clip_step_eq.
  rewrite !report_line_other by discriminate.
  f_equal.
  - unfold clip_column. rewrite !map_map. apply map_ext. intros s.
    destruct s; reflexivity.
  - cbn [flat_map]. rewrite app_nil_r, <- !app_assoc. reflexivity.
Qed.

(** ** Fitted transformers *)

Lemma fit_inv (fsqrt : Q -> Q) (df : list Student) (ct : ColumnTransformer) :
  fit fsqrt df = Some ct ->
  df <> [] /\ ct = {| num := scaler_fit fsqrt df; cat := encoder_fit df |}.
Proof. destruct df; simpl; [discriminate |]. intros [= <-]. split; [discriminate | reflexivity]. Qed.

Lemma fit_well_formed (fsqrt : Q -> Q) (df : list Student) (ct : ColumnTransformer) :
  fit fsqrt df = Some ct -> well_formed ct = true.
Proof. intros H. apply fit_inv in H as [_ ->]. reflexivity. Qed.

(** *** Vocabularies of texts and of integers *)

Lemma cell_eqb_CStr (a b : string) : cell_eqb (CStr a) (CStr b) = String.eqb a b.
Proof. reflexivity. Qed.

Lemma cell_eqb_CInt (a b : Z) : cell_eqb (CInt a) (CInt b) = Z.eqb a b.
Proof.
  unfold cell_eqb. cbn [cell_number]. unfold Qeq_bool. simpl.
  rewrite !Z.mul_1_r. reflexivity.
Qed.

Lemma known_strings (l : list string) (x : string) :
  In x l -> known (map CStr l) (CStr x) = true.
Proof.
  intros H. unfold known. apply existsb_exists. exists (CStr x).
  split; [apply in_map; exact H |].
  rewrite cell_eqb_CStr. apply String.eqb_refl.
Qed.

Lemma known_ints (l : list Z) (x : Z) :
  In x l -> known (map CInt l) (CInt x) = true.
Proof.
  intros H. unfold known. apply existsb_exists. exists (CInt x).
  split; [apply in_map; exact H |].
  rewrite cell_eqb_CInt. apply Z.eqb_refl.
Qed.

Lemma numeric_array_ints (l : list Z) : object_array (map CInt l) = false.
Proof.
  unfold object_array. induction l as [| z l IH]; [reflexivity | exact IH].
Qed.

Lemma indicators_strings (l : list string) (x : string) :
  indicators (map CStr l) (CStr x)
  = map (fun k => if String.eqb x k then 1%Q else 0%Q) (tail l).
Proof.
  unfold indicators. destruct l as [| a l]; [reflexivity |].
  cbn [map tail]. rewrite map_map. reflexivity.
Qed.

Lemma indicators_ints (l : list Z) (x : Z) :
  indicators (map CInt l) (CInt x)
  = map (fun k => if Z.eqb x k then 1%Q else 0%Q) (tail l).
Proof.
  unfold indicators. destruct l as [| a l]; [reflexivity |].
  cbn [map tail]. rewrite map_map. apply map_ext.
  intros k. rewrite cell_eqb_CInt. reflexivity.
Qed.

Lemma In_unique_strings (l : list string) (x : string) :
  In x (np_unique String.compare l) <-> In x l.
Proof.
  rewrite <- !list_elem_of_In.
  apply (elem_of_np_unique _ String_as_OT.cmp_eq).
Qed.

Lemma In_unique_ints (l : list Z) (x : Z) :
  In x (np_unique Z.compare l) <-> In x l.
Proof.
  rewrite <- !list_elem_of_In.
  apply (elem_of_np_unique _ Z.compare_eq_iff).
Qed.

Lemma unique_strings_ascending (l : list string) :
  ascending String.compare (np_unique String.compare l).
Proof.
  apply np_unique_ascending.
  - apply String_as_OT.cmp_eq.
  - apply String.compare_antisym.
  - apply string_compare_trans.
Qed.

Lemma unique_ints_ascending (l : list Z) :
  ascending Z.compare (np_unique Z.compare l).
Proof.
  apply np_unique_ascending.
  - apply Z.compare_eq_iff.
  - intros x y. apply Z.compare_antisym.
  - apply Z_compare_trans.
Qed.

(** *** Unseen categories *)

Lemma categorical_finite_inv (row : gmap string cell) :
  categorical_finite row = true ->
  existsb is_infinity (map (column row) cat_features) = false.
Proof.
  unfold categorical_finite. cbn [cat_features forallb map existsb].
  destruct (is_infinity (column row "major")); [discriminate |].
  destruct (is_infinity (column row "gender")); [discriminate |].
  destruct (is_infinity (column row "club_participation")); [discriminate |].
  reflexivity.
Qed.

Lemma unseen_raises (ct : ColumnTransformer) (row : gmap string cell) :
  well_formed ct = true -> has_all_keys row = true ->
  numeric_finite row = true -> categorical_finite row = true ->
  all_seen ct row = false ->
  exists i f cats,
    cat_features !! i = Some f /\ categories_ (cat ct) !! i = Some cats
    /\ seen ct i row = false
    /\ (forall j, (j < i)%nat -> seen ct j row = true)
    /\ transform ct row =
         Raise (if isnan_raises cats (column row f)
                then SklearnTypeError i
                else SklearnValueError (UnknownCategories i)).
Proof.
  intros Hwf Hkeys Hnum Hcat Hseen.
  destruct (well_formed_inv ct Hwf)
    as (m1 & m2 & m3 & m4 & m5 & s1 & s2 & s3 & s4 & s5 & c0 & c1 & c2 & ->).
  apply categorical_finite_inv in Hcat.
  unfold transform. rewrite selected_present by assumption.
  rewrite (to_floats_finite row num_features Hnum). cbn [bind].
  unfold scaler_transform. rewrite existsb_is_inf_Finite.
  cbn [num mean_ scale_ length map num_features Nat.eqb negb bind].
  unfold encoder_transform. cbn [cat categories_]. rewrite Hcat.
  unfold all_seen, seen in *.
  cbn [cat categories_ lookup list_lookup cat_features map length Nat.eqb
       negb first_refused] in *.
  destruct (isnan_raises c0 (column row "major")) eqn:N0.
  { exists 0%nat, "major", c0. cbn [lookup list_lookup cat_features].
    rewrite !N0. repeat (split; [reflexivity |]).
    split; [intros j Hj; lia | reflexivity]. }
  destruct (known c0 (column row "major")) eqn:K0.
  2:{ exists 0%nat, "major", c0. cbn [lookup list_lookup cat_features].
      rewrite !N0, ?K0. repeat (split; [reflexivity |]).
      split; [intros j Hj; lia | reflexivity]. }
  destruct (isnan_raises c1 (column row "gender")) eqn:N1.
  { exists 1%nat, "gender", c1. cbn [lookup list_lookup cat_features].
    rewrite !N1. repeat (split; [reflexivity |]). split; [| reflexivity].
    intros [| j] Hj; [| lia]. cbn [lookup list_lookup cat_features].
    rewrite N0, K0. reflexivity. }
  destruct (known c1 (column row "gender")) eqn:K1.
  2:{ exists 1%nat, "gender", c1. cbn [lookup list_lookup cat_features].
      rewrite !N1, ?K1. repeat (split; [reflexivity |]). split; [| reflexivity].
      intros [| j] Hj; [| lia]. cbn [lookup list_lookup cat_features].
      rewrite N0, K0. reflexivity. }
  destruct (isnan_raises c2 (column row "club_participation")) eqn:N2.
  { exists 2%nat, "club_participation", c2. cbn [lookup list_lookup cat_features].
    rewrite !N2. repeat (split; [reflexivity |]). split; [| reflexivity].
    intros [| [| j]] Hj; [| | lia]; cbn [lookup list_lookup cat_features].
    - rewrite N0, K0. reflexivity.
    - rewrite N1, K1. reflexivity. }
  destruct (known c2 (column row "club_participation")) eqn:K2;
    [discriminate |].
  exists 2%nat, "club_participation", c2. cbn [lookup list_lookup cat_features].
  rewrite !N2, ?K2. repeat (split; [reflexivity |]). split; [| reflexivity].
  intros [| [| j]] Hj; [| | lia]; cbn [lookup list_lookup cat_features].
  - rewrite N0, K0. reflexivity.
  - rewrite N1, K1. reflexivity.
Qed.

(** *** Constant columns *)

Lemma square_nonneg (a : Q) : (0 <= a * a)%Q.
Proof. unfold Qle, Qmult. simpl. nia. Qed.

Lemma Qsum_cons (x : Q) (l : list Q) : Qsum (x :: l) = (x + Qsum l)%Q.
Proof. reflexivity. Qed.

Lemma Qsum_zero (l : list Q) :
  List.Forall (fun x => (x == 0)%Q) l -> (Qsum l == 0)%Q.
Proof.
  induction 1 as [| x l Hx Hl IH]; [reflexivity |].
  rewrite Qsum_cons, Hx, IH. reflexivity.
Qed.

Lemma mean_zero (l : list Q) : (Qsum l == 0)%Q -> (mean l == 0)%Q.
Proof. intros H. unfold mean, Qdiv. rewrite H. apply Qmult_0_l. Qed.

Lemma Qsum_constant (l : list Q) (c : Q) :
  List.Forall (fun x => (x == c)%Q) l ->
  (Qsum l == inject_Z (Z.of_nat (length l)) * c)%Q.
Proof.
  induction 1 as [| x l Hx Hl IH]; [simpl; ring |].
  rewrite Qsum_cons, Hx, IH. cbn [length].
  rewrite Nat2Z.inj_succ, <- Z.add_1_r, inject_Z_plus. ring.
Qed.

Lemma mean_constant (l : list Q) (c : Q) :
  l <> [] -> List.Forall (fun x => (x == c)%Q) l -> (mean l == c)%Q.
Proof.
  intros Hne Hl. unfold mean. rewrite (Qsum_constant l c Hl). field.
  destruct l; [congruence |]. cbn [length].
  intros H. rewrite Nat2Z.inj_succ in H.
  unfold Qeq in H. simpl in H. lia.
Qed.

(** A column that holds one value in every row has variance 0. *)
Lemma variance_constant (l : list Q) (c : Q) :
  List.Forall (fun x => (x == c)%Q) l -> (variance l == 0)%Q.
Proof.
  intros Hl. unfold variance. apply mean_zero, Qsum_zero.
  destruct l as [| a l]; [constructor |].
  assert (Hm : (mean (a :: l) == c)%Q) by (apply mean_constant; [discriminate | exact Hl]).
  apply List.Forall_forall. intros y Hy.
  apply in_map_iff in Hy as (x & <- & Hx).
  rewrite List.Forall_forall in Hl. rewrite (Hl x Hx), Hm. ring.
Qed.

Lemma constant_feature_zero_variance (var mu : Q) (n : nat) :
  (var == 0)%Q -> is_constant_feature var mu n = true.
Proof.
  intros Hvar. unfold is_constant_feature. apply Qle_bool_iff.
  rewrite Hvar. rewrite Qmult_0_r, Qplus_0_l. apply square_nonneg.
Qed.

Lemma scale_of_constant (fsqrt : Q -> Q) (col : list Q) :
  (variance col == 0)%Q -> scale_of fsqrt col = 1%Q.
Proof.
  intros H. unfold scale_of.
  rewrite constant_feature_zero_variance by assumption. reflexivity.
Qed.

Lemma standardize_unit (x mu : Q) : (standardize x mu 1 == x - mu)%Q.
Proof. unfold standardize. field. Qed.

Lemma constant_column_component (fsqrt : Q -> Q) (df : list Student)
  (ct : ColumnTransformer) (row : gmap string cell)
  (j : nat) (col : list Q) (f : string) (c : Q) :
  fit fsqrt df = Some ct ->
  numeric_columns df !! j = Some col -> num_features !! j = Some f ->
  List.Forall (fun x => (x == c)%Q) col ->
  exists mu y,
    mean_ (num ct) !! j = Some mu /\ scale_ (num ct) !! j = Some 1%Q
    /\ map Finite (feature_vector ct row) !! j = Some (Finite y)
    /\ (y == float_of row f - mu)%Q.
Proof.
  intros Hfit Hcol Hf Hconst.
  apply variance_constant in Hconst.
  apply fit_inv in Hfit as [_ ->].
  unfold feature_vector, scaled_block, scaler_fit, numeric_columns in *.
  cbn [num mean_ scale_ map zip zip_with num_features] in *.
  destruct j as [| [| [| [| [| j]]]]]; cbn in Hcol, Hf; try discriminate;
    injection Hcol as <-; injection Hf as <-;
    rewrite (scale_of_constant fsqrt _ Hconst);
    eexists; eexists; (split; [reflexivity |]); (split; [reflexivity |]);
    (split; [reflexivity |]); apply standardize_unit.
Qed.

(** *** Layout *)

Lemma fitted_output_dim (fsqrt : Q -> Q) (df : list Student) :
  output_dim {| num := scaler_fit fsqrt df; cat := encoder_fit df |} =
    (5 + (size (list_to_set (map major df) : gset string) - 1)
       + (size (list_to_set (map gender df) : gset Z) - 1)
       + (size (list_to_set (map club_participation df) : gset Z) - 1))%nat.
Proof.
  unfold output_dim. cbn.
  rewrite !length_map, length_unique_strings, !length_unique_ints. lia.
Qed.

(** The row holds a text of the training frame as major and integers of
    the training frame as gender and club participation. *)
Lemma fitted_seen (fsqrt : Q -> Q) (df : list Student) (row : gmap string cell)
  (m : string) (g c : Z) :
  column row "major" = CStr m -> column row "gender" = CInt g ->
  column row "club_participation" = CInt c ->
  In m (map major df) -> In g (map gender df) ->
  In c (map club_participation df) ->
  all_seen {| num := scaler_fit fsqrt df; cat := encoder_fit df |} row = true.
Proof.
  intros Hm Hg Hc Im Ig Ic. unfold all_seen, seen.
  cbn [cat categories_ encoder_fit lookup list_lookup cat_features].
  rewrite Hm, Hg, Hc. unfold isnan_raises. rewrite !numeric_array_ints.
  rewrite !andb_false_r. cbn [infer_dtype is_numeric_dtype andb negb].
  rewrite known_strings by (apply In_unique_strings; exact Im).
  rewrite !known_ints by (apply In_unique_ints; assumption).
  reflexivity.
Qed.

Lemma fitted_layout (fsqrt : Q -> Q) (df : list Student) (row : gmap string cell)
  (m : string) (g c : Z) :
  column row "major" = CStr m -> column row "gender" = CInt g ->
  column row "club_participation" = CInt c ->
  feature_vector {| num := scaler_fit fsqrt df; cat := encoder_fit df |} row =
    ([standardize (float_of row "attendance") (mean (map attendance df))
        (scale_of fsqrt (map attendance df));
      standardize (float_of row "homework_completion")
        (mean (map homework_completion df))
        (scale_of fsqrt (map homework_completion df));
      standardize (float_of row "lib_borrow") (mean (map lib_borrow df))
        (scale_of fsqrt (map lib_borrow df));
      standardize (float_of row "class_interaction")
        (mean (map class_interaction df))
        (scale_of fsqrt (map class_interaction df));
      standardize (float_of row "exam_score") (mean (map exam_score df))
        (scale_of fsqrt (map exam_score df))]
     ++ map (fun k => if String.eqb m k then 1%Q else 0%Q)
          (tail (np_unique String.compare (map major df)))
     ++ map (fun k => if Z.eqb g k then 1%Q else 0%Q)
          (tail (np_unique Z.compare (map gender df)))
     ++ map (fun k => if Z.eqb c k then 1%Q else 0%Q)
          (tail (np_unique Z.compare (map club_participation df))))%list.
Proof.
  intros Hm Hg Hc. unfold feature_vector, scaled_block, onehot_block.
  cbn [num cat mean_ scale_ categories_ scaler_fit encoder_fit numeric_columns
       map zip zip_with num_features cat_features concat fst snd].
  rewrite Hm, Hg, Hc, indicators_strings, !indicators_ints, app_nil_r.
  reflexivity.
Qed.

(** *** Updating one key of the row *)

Lemma column_insert (row : gmap string cell) (f g : string) (c : cell) :
  column (<[f := c]> row) g = if decide (f = g) then c else column row g.
Proof.
  unfold column. rewrite lookup_insert. destruct (decide (f = g)); reflexivity.
Qed.

Lemma has_all_keys_insert (row : gmap string cell) (f : string) (c : cell) :
  has_all_keys row = true -> has_all_keys (<[f := c]> row) = true.
Proof.
  unfold has_all_keys. rewrite !forallb_forall. intros H g Hg.
  apply bool_decide_eq_true. rewrite lookup_insert.
  destruct (decide (f = g)); [eauto |].
  specialize (H g Hg). apply bool_decide_eq_true in H. exact H.
Qed.

Lemma numeric_finite_insert (row : gmap string cell) (f : string) (c : cell) :
  is_finite_number c = true ->
  numeric_finite row = true -> numeric_finite (<[f := c]> row) = true.
Proof.
  unfold numeric_finite. rewrite !forallb_forall. intros Hc H g Hg.
  rewrite column_insert. destruct (decide (f = g)); auto.
Qed.

Lemma all_seen_insert (ct : ColumnTransformer) (row : gmap string cell)
  (f : string) (c : cell) :
  f ∈ numeric_features -> all_seen ct (<[f := c]> row) = all_seen ct row.
Proof.
  intros Hf. unfold all_seen, seen. cbn.
  rewrite !column_insert.
  apply list_elem_of_In in Hf. simpl in Hf.
  destruct Hf as [<- | [<- | [<- | [<- | [<- | []]]]]]; reflexivity.
Qed.

Lemma series_clip_bounds (lo hi x : Q) :
  (lo <= hi)%Q ->
  (lo <= series_clip lo hi x)%Q /\ (series_clip lo hi x <= hi)%Q.
Proof.
  intros Hlh. unfold series_clip, Qlt_bool.
  destruct (Qle_bool lo x) eqn:E1; simpl.
  - destruct (Qle_bool x hi) eqn:E2; simpl.
    + apply Qle_bool_iff in E1, E2. split; assumption.
    + split; [assumption | apply Qle_refl].
  - split; [apply Qle_refl | assumption].
Qed.


Lemma predict_gpa_absent (py_str : PyObj -> string) (fs : FileSystem)
  (root : string) (row : gmap string cell) :
  os_path_isdir fs root = true -> artifacts_on_disk fs root = false ->
  exists msg,
    predict_gpa py_str fs (PyDict row) (PyStr root) = Raise (FileNotFoundError msg)
    /\ (os_path_exists fs (models_dir root) = true ->
        mentions train_first msg = true).
Proof.
  intros Hdir Habsent. unfold artifacts_on_disk in Habsent. rewrite Hdir in Habsent.
  unfold predict_gpa, valid_root, root_path.
  fold (models_dir root). fold (model_path root). fold (preprocessor_path root).
  rewrite Hdir. cbn [negb].
  destruct (os_path_exists fs (models_dir root)) eqn:E1; cbn [negb].
  - destruct (os_path_exists fs (preprocessor_path root)) eqn:E2; cbn [negb].
    + destruct (os_path_exists fs (model_path root)) eqn:E3; [discriminate |].
      cbn [negb]. eexists. split; [reflexivity |]. intros _.
      do 3 apply mentions_append. apply mentions_self.
    + eexists. split; [reflexivity |]. intros _.
      do 3 apply mentions_append. apply mentions_self.
  - eexists. split; [reflexivity | discriminate].
Qed.

Lemma absent_not_on_disk (fs : FileSystem) (root : string) :
  os_path_exists fs (preprocessor_path root) = false
  \/ os_path_exists fs (model_path root) = false ->
  artifacts_on_disk fs root = false.
Proof.
  unfold artifacts_on_disk. intros [H | H]; rewrite H.
  - rewrite andb_false_r. reflexivity.
  - apply andb_false_r.
Qed.

Lemma append_assoc (a b c : string) : (a +:+ b) +:+ c = a +:+ (b +:+ c).
Proof.
  induction a as [| x a IH]; [reflexivity |].
  change (String x ((a +:+ b) +:+ c) = String x (a +:+ (b +:+ c))).
  rewrite IH. reflexivity.
Qed.

(** The message of the missing-feature error, character by character. *)
Lemma missing_message_text (missing : list string) :
  missing_message missing
  = "❌ 缺失特征：["
    +:+ String.concat ", " (map (fun f => "'" +:+ f +:+ "'") missing)
    +:+ "]，请补充后重新预测".
Proof.
  unfold missing_message, repr_names. rewrite !append_assoc.
  rewrite <- (append_assoc "❌ 缺失特征：" "["). reflexivity.
Qed.





(* ===================================================================== *)
(** ** The claims *)
(* ===================================================================== *)




(** The same claim fails on a numeric-typed value that is no finite
    number: NaN passes the dtype check and is refused by the regression,
    an infinity by the scaler. *)
Example nan_attendance_refused :
  numeric_typed student_nan_attendance = true
  /\ predict_gpa str_builtin fs_trained (PyDict student_nan_attendance)
       (PyStr "/proj")
     = Raise (SklearnValueError InputContainsNaN).
Proof. split; vm_compute; reflexivity. Qed.

Example inf_attendance_refused :
  numeric_typed student_inf_attendance = true
  /\ predict_gpa str_builtin fs_trained (PyDict student_inf_attendance)
       (PyStr "/proj")
     = Raise (SklearnValueError InputContainsInfinity).
Proof. split; vm_compute; reflexivity. Qed.

(** C2 (as amended). With a dict, an existing project directory and both
    artifacts on disk and deserializing, a row that misses one or more of
    the 8 required keys makes [predict_gpa] raise the missing-feature
    error (a ValueError) whose message lists, between brackets, quoted and
    in the order of the schema, exactly the omitted keys. *)
Theorem missing_feature_rejection (py_str : PyObj -> string) (fs : FileSystem)
  (root : string) (row : gmap string cell) :
  artifacts_on_disk fs root = true -> loadable fs root = true ->
  has_all_keys row = false ->
  let omitted :=
    filter (fun f => row !! f = None)
      ["major"; "gender"; "attendance"; "homework_completion";
       "lib_borrow"; "club_participation"; "class_interaction";
       "exam_score"] in
  omitted <> []
  /\ predict_gpa py_str fs (PyDict row) (PyStr root) =
       Raise (ValueError
                ("❌ 缺失特征：["
                 +:+ String.concat ", "
                       (map (fun f => "'" +:+ f +:+ "'") omitted)
                 +:+ "]，请补充后重新预测")).
Proof.
  intros Hdisk Hload Hkeys omitted. split.
  - apply missing_features_nonempty. exact Hkeys.
  - rewrite <- missing_message_text.
    apply predict_gpa_missing; assumption.
Qed.

Lemma missing_feature_rejection_witness :
  predict_gpa str_builtin fs_trained (PyDict student_no_major) (PyStr "/proj")
  = Raise (ValueError "❌ 缺失特征：['major']，请补充后重新预测").
Proof.
  apply (missing_feature_rejection str_builtin fs_trained "/proj"
           student_no_major); vm_compute; reflexivity.
Defined.

(** C2 as stated fails: with both artifact files present but not
    deserializing, a row without its [major] key gets the load error, not
    the missing-feature error. *)
Lemma missing_key_corrupt_artifacts :
  has_all_keys student_no_major = false
  /\ artifacts_on_disk fs_corrupt "/proj" = true
  /\ predict_gpa str_builtin fs_corrupt (PyDict student_no_major) (PyStr "/proj")
     = Raise (RuntimeError "❌ 加载模型/流水线失败：pickle data was truncated").
Proof. repeat split; vm_compute; reflexivity. Qed.

(** C3 (as amended). For a transformer of 5 numeric columns and 3
    vocabularies and a row with the 8 features, finite numeric features
    and no infinite categorical value: a categorical value never seen
    during Fit makes Transform raise, and no vector is produced. The
    error is that of the first categorical column, in the order major,
    gender, club_participation, whose value the encoder does not find: a
    TypeError when the value is a number and the vocabulary of the column
    holds texts, the unknown-category ValueError otherwise. *)
Theorem unseen_category_error (ct : ColumnTransformer) (row : gmap string cell) :
  well_formed ct = true -> has_all_keys row = true ->
  numeric_finite row = true -> categorical_finite row = true ->
  all_seen ct row = false ->
  exists i f cats,
    cat_features !! i = Some f /\ categories_ (cat ct) !! i = Some cats
    /\ seen ct i row = false
    /\ (forall j, (j < i)%nat -> seen ct j row = true)
    /\ transform ct row =
         Raise (if is_numeric_dtype (infer_dtype (column row f))
                   && existsb is_text cats
                then SklearnTypeError i
                else SklearnValueError (UnknownCategories i)).
Proof. apply unseen_raises. Qed.

Lemma unseen_category_error_witness :
  transform ct_demo student_unseen
  = Raise (SklearnValueError (UnknownCategories 0))
  /\ transform ct_demo student_numeric_major = Raise (SklearnTypeError 0).
Proof.
  assert (Hwf : well_formed ct_demo = true) by (vm_compute; reflexivity).
  split.
  - assert (Hkeys : has_all_keys student_unseen = true)
      by (vm_compute; reflexivity).
    assert (Hnum : numeric_finite student_unseen = true)
      by (vm_compute; reflexivity).
    assert (Hcat : categorical_finite student_unseen = true)
      by (vm_compute; reflexivity).
    assert (Hseen : all_seen ct_demo student_unseen = false)
      by (vm_compute; reflexivity).
    destruct (unseen_category_error ct_demo student_unseen
                Hwf Hkeys Hnum Hcat Hseen)
      as (i & f & cats & Hf & Hcats & Hi & Hfirst & Hraise).
    destruct i as [| i].
    + injection Hf as <-. injection Hcats as <-. exact Hraise.
    + specialize (Hfirst 0%nat (Nat.lt_0_succ i)).
      vm_compute in Hfirst. discriminate Hfirst.
  - assert (Hkeys : has_all_keys student_numeric_major = true)
      by (vm_compute; reflexivity).
    assert (Hnum : numeric_finite student_numeric_major = true)
      by (vm_compute; reflexivity).
    assert (Hcat : categorical_finite student_numeric_major = true)
      by (vm_compute; reflexivity).
    assert (Hseen : all_seen ct_demo student_numeric_major = false)
      by (vm_compute; reflexivity).
    destruct (unseen_category_error ct_demo student_numeric_major
                Hwf Hkeys Hnum Hcat Hseen)
      as (i & f & cats & Hf & Hcats & Hi & Hfirst & Hraise).
    destruct i as [| i].
    + injection Hf as <-. injection Hcats as <-. exact Hraise.
    + specialize (Hfirst 0%nat (Nat.lt_0_succ i)).
      vm_compute in Hfirst. discriminate Hfirst.
Defined.

(** C3 as stated fails: on a transformer fitted on a frame without the
    school of the row, Transform raises and gives no all-zero vector. *)
Lemma unseen_category_not_zero_vector :
  fit sqrt_approx df_demo = Some ct_demo
  /\ seen ct_demo 0 student_unseen = false
  /\ transform ct_demo student_unseen
     = Raise (SklearnValueError (UnknownCategories 0))
  /\ returns (transform ct_demo student_unseen) = false.
Proof. repeat split; vm_compute; reflexivity. Qed.

(** C4. For a transformer fitted on a training frame (of the 8 feature
    columns), every output vector of Transform has dimension 5 plus, per
    categorical feature, the number of distinct categories of the training
    frame minus 1. The vocabulary of each categorical feature is the
    strictly increasing list of the distinct values of its training
    column. For a row with the 8 features, finite numeric features of
    moderate size, a text of the training frame as major and integers of
    the training frame as gender and club_participation, the vector is:
    the 5 numeric features in declared order (attendance,
    homework_completion, lib_borrow, class_interaction, exam_score), each
    less its stored mean and divided by its stored scale, then the
    indicator columns of major, of gender and of club_participation, one
    column per entry of the vocabulary but the first, in vocabulary order,
    holding 1 where the entry is the value of the row and 0 elsewhere. *)
Theorem output_vector_layout (fsqrt : Q -> Q) (df : list Student)
  (ct : ColumnTransformer) (row : gmap string cell)
  (m : string) (g c : Z) :
  fit fsqrt df = Some ct ->
  let majors := np_unique String.compare (map major df) in
  let genders := np_unique Z.compare (map gender df) in
  let clubs := np_unique Z.compare (map club_participation df) in
  (categories_ (cat ct) = [map CStr majors; map CInt genders; map CInt clubs]
   /\ ascending String.compare majors
   /\ (forall k, In k majors <-> In k (map major df))
   /\ ascending Z.compare genders
   /\ (forall k, In k genders <-> In k (map gender df))
   /\ ascending Z.compare clubs
   /\ (forall k, In k clubs <-> In k (map club_participation df)))
  /\ (forall v, transform ct row = Return v ->
      length v =
        (5 + (size (list_to_set (map major df) : gset string) - 1)
           + (size (list_to_set (map gender df) : gset Z) - 1)
           + (size (list_to_set (map club_participation df) : gset Z) - 1))%nat)
  /\ (row !! "major" = Some (CStr m) -> row !! "gender" = Some (CInt g) ->
      row !! "club_participation" = Some (CInt c) ->
      In m (map major df) -> In g (map gender df) ->
      In c (map club_participation df) ->
      has_all_keys row = true -> numeric_finite row = true ->
      moderate_features ct row = true ->
      exists mu1 mu2 mu3 mu4 mu5 s1 s2 s3 s4 s5,
        mean_ (num ct) = [mu1; mu2; mu3; mu4; mu5]
        /\ scale_ (num ct) = [s1; s2; s3; s4; s5]
        /\ transform ct row =
             Return
               (map Finite
                  ([(float_of row "attendance" - mu1) / s1;
                    (float_of row "homework_completion" - mu2) / s2;
                    (float_of row "lib_borrow" - mu3) / s3;
                    (float_of row "class_interaction" - mu4) / s4;
                    (float_of row "exam_score" - mu5) / s5]%Q
                   ++ map (fun k => if String.eqb m k then 1%Q else 0%Q)
                        (tail majors)
                   ++ map (fun k => if Z.eqb g k then 1%Q else 0%Q)
                        (tail genders)
                   ++ map (fun k => if Z.eqb c k then 1%Q else 0%Q)
                        (tail clubs))%list)).
Proof.
  intros Hfit majors genders clubs.
  pose proof (fit_well_formed _ _ _ Hfit) as Hwf.
  apply fit_inv in Hfit as [Hne ->]. split; [| split].
  - split; [reflexivity |].
    split; [apply unique_strings_ascending |].
    split; [intros k; apply In_unique_strings |].
    split; [apply unique_ints_ascending |].
    split; [intros k; apply In_unique_ints |].
    split; [apply unique_ints_ascending |].
    intros k; apply In_unique_ints.
  - intros v Hv. rewrite (transform_length _ _ _ Hwf Hv).
    apply fitted_output_dim.
  - intros Hm Hg Hc Im Ig Ic Hkeys Hnum _.
    assert (Cm : column row "major" = CStr m) by (unfold column; rewrite Hm; reflexivity).
    assert (Cg : column row "gender" = CInt g) by (unfold column; rewrite Hg; reflexivity).
    assert (Cc : column row "club_participation" = CInt c)
      by (unfold column; rewrite Hc; reflexivity).
    do 10 eexists. split; [reflexivity |]. split; [reflexivity |].
    rewrite transform_returns; try assumption.
    + rewrite (fitted_layout fsqrt df row m g c Cm Cg Cc). reflexivity.
    + apply fitted_seen with (m := m) (g := g) (c := c); assumption.
Qed.

Lemma output_vector_layout_witness :
  np_unique String.compare (map major df_demo) = ["人工智能学院"; "文学院"]
  /\ np_unique Z.compare (map gender df_demo) = [0; 1]%Z
  /\ np_unique Z.compare (map club_participation df_demo) = [0; 1]%Z
  /\ (exists y1 y2 y3 y4 y5,
        transform ct_demo student1
        = Return (map Finite [y1; y2; y3; y4; y5; 0; 1; 1]%Q))
  /\ (forall v, transform ct_demo student1 = Return v -> length v = 8%nat).
Proof.
  split; [vm_compute; reflexivity |].
  split; [vm_compute; reflexivity |].
  split; [vm_compute; reflexivity |].
  destruct (output_vector_layout sqrt_approx df_demo ct_demo student1
              "人工智能学院" 1 1 eq_refl) as (_ & Hdim & Hlayout).
  destruct Hlayout
    as (mu1 & mu2 & mu3 & mu4 & mu5 & s1 & s2 & s3 & s4 & s5 & _ & _ & Hv).
  - vm_compute; reflexivity.
  - vm_compute; reflexivity.
  - vm_compute; reflexivity.
  - left. reflexivity.
  - left. reflexivity.
  - left. reflexivity.
  - vm_compute; reflexivity.
  - vm_compute; reflexivity.
  - vm_compute; reflexivity.
  - split.
    + do 5 eexists. exact Hv.
    + intros v Hv'. rewrite (Hdim v Hv'). vm_compute. reflexivity.
Defined.

(** C5 (as amended). When a numeric column of the training frame holds
    one value in every row, the scale stored for that column is 1, so
    nothing is divided by zero; for a row that Transform accepts (the 8
    features, finite numeric features of moderate size, seen categories)
    the output for that column is a finite number, the value of the row
    less the mean stored at fit time: 0 exactly when the value of the row
    is that stored mean, and not 0 otherwise. *)
Theorem constant_column_shift (fsqrt : Q -> Q) (df : list Student)
  (ct : ColumnTransformer) (row : gmap string cell)
  (j : nat) (col : list Q) (f : string) (c : Q) :
  fit fsqrt df = Some ct ->
  numeric_columns df !! j = Some col -> num_features !! j = Some f ->
  List.Forall (fun x => (x == c)%Q) col ->
  has_all_keys row = true -> numeric_finite row = true ->
  all_seen ct row = true -> moderate_features ct row = true ->
  exists (mu : Q) (v : list float64) (y : Q),
    mean_ (num ct) !! j = Some mu /\ scale_ (num ct) !! j = Some 1%Q
    /\ transform ct row = Return v /\ v !! j = Some (Finite y)
    /\ (y == float_of row f - mu)%Q
    /\ ((y == 0)%Q <-> (float_of row f == mu)%Q).
Proof.
  intros Hfit Hcol Hf Hconst Hkeys Hnum Hseen _.
  destruct (constant_column_component fsqrt df ct row j col f c)
    as (mu & y & Hmu & Hscale & Hy & Heq); try assumption.
  exists mu, (map Finite (feature_vector ct row)), y.
  split; [exact Hmu |]. split; [exact Hscale |].
  split; [apply transform_returns; try assumption;
          apply (fit_well_formed _ _ _ Hfit) |].
  split; [exact Hy |]. split; [exact Heq |].
  rewrite Heq. split; intros H; lra.
Qed.

Lemma constant_column_shift_witness :
  List.Forall (fun x => (x == 26)%Q) (map attendance df_constant)
  /\ exists (v : list float64) (y : Q),
       scale_ (num ct_constant) !! 0%nat = Some 1%Q
       /\ transform ct_constant student_attendance_26 = Return v
       /\ v !! 0%nat = Some (Finite y)
       /\ (y == 0)%Q.
Proof.
  assert (Hconst : List.Forall (fun x => (x == 26)%Q) (map attendance df_constant))
    by (repeat constructor).
  split; [exact Hconst |].
  destruct (constant_column_shift sqrt_approx df_constant ct_constant
              student_attendance_26 0 (map attendance df_constant)
              "attendance" 26%Q)
    as (mu & v & y & Hmu & Hscale & Hv & Hy & Heq & Hzero);
    [reflexivity | reflexivity | reflexivity | exact Hconst
     | vm_compute; reflexivity | vm_compute; reflexivity
     | vm_compute; reflexivity | vm_compute; reflexivity |].
  exists v, y. split; [exact Hscale |]. split; [exact Hv |].
  split; [exact Hy |].
  apply Hzero. injection Hmu as <-. vm_compute. reflexivity.
Defined.

(** C5 as stated fails: fitted on a frame whose attendance is 26 in every
    row, Transform of a row with attendance 30 yields 4 for that column,
    not 0. *)
Lemma constant_column_not_zero :
  fit sqrt_approx df_constant = Some ct_constant
  /\ List.Forall (fun x => (x == 26)%Q) (map attendance df_constant)
  /\ student1 !! "attendance" = Some (CInt 30)
  /\ exists y rest,
       transform ct_constant student1 = Return (Finite y :: rest)
       /\ (y == 4)%Q /\ ~ (y == 0)%Q.
Proof.
  split; [reflexivity |]. split; [repeat constructor |].
  split; [vm_compute; reflexivity |].
  eexists. eexists. split; [vm_compute; reflexivity |].
  split; [vm_compute; reflexivity |].
  intros H. vm_compute in H. discriminate H.
Qed.
(** C6 (as amended). With a dict and a project root that names an
    existing directory, [predict_gpa] checks that the artifacts exist and
    loads them before it validates the row: for a row missing a required
    key, an absent artifact gives the artifact-not-found error, and the
    missing-feature error is raised exactly when both artifacts are on disk
    and load. *)
Theorem artifact_checks_before_validation (py_str : PyObj -> string)
  (fs : FileSystem) (root : string) (row : gmap string cell) :
  os_path_isdir fs root = true -> has_all_keys row = false ->
  (os_path_exists fs (preprocessor_path root) = false
   \/ os_path_exists fs (model_path root) = false ->
   exists msg,
     predict_gpa py_str fs (PyDict row) (PyStr root)
     = Raise (FileNotFoundError msg))
  /\ (predict_gpa py_str fs (PyDict row) (PyStr root)
      = Raise (ValueError (missing_message (missing_features row)))
      <-> artifacts_on_disk fs root = true /\ loadable fs root = true).
Proof.
  intros Hdir Hkeys. split.
  - intros Habsent. apply absent_not_on_disk in Habsent.
    destruct (predict_gpa_absent py_str fs root row Hdir Habsent) as (msg & Hmsg & _).
    exists msg. exact Hmsg.
  - split.
    + intros Hraise. destruct (artifacts_on_disk fs root) eqn:Hdisk.
      * split; [reflexivity |].
        rewrite predict_gpa_on_disk in Hraise by assumption.
        unfold load_artifacts, loadable in *.
        destruct (joblib_load fs (model_path root)); [discriminate |].
        destruct (joblib_load fs (preprocessor_path root)); [discriminate |].
        reflexivity.
      * destruct (predict_gpa_absent py_str fs root row Hdir Hdisk)
          as (msg & Hmsg & _).
        congruence.
    + intros [Hdisk Hload]. apply predict_gpa_missing; assumption.
Qed.

Lemma artifact_checks_before_validation_witness :
  (exists msg,
     predict_gpa str_builtin fs_untrained (PyDict student_no_major) (PyStr "/proj")
     = Raise (FileNotFoundError msg))
  /\ predict_gpa str_builtin fs_trained (PyDict student_no_major) (PyStr "/proj")
     = Raise (ValueError (missing_message (missing_features student_no_major))).
Proof.
  split.
  - apply (artifact_checks_before_validation str_builtin fs_untrained "/proj"
             student_no_major); [reflexivity | reflexivity |].
    left. reflexivity.
  - apply (artifact_checks_before_validation str_builtin fs_trained "/proj"
             student_no_major); [reflexivity | reflexivity |].
    split; vm_compute; reflexivity.
Defined.

(** C6 as stated fails: with no artifact on disk, a row without its [major]
    key gets the artifact-not-found error, not the missing-feature error. *)
Lemma missing_key_without_artifacts :
  has_all_keys student_no_major = false
  /\ os_path_exists fs_untrained (model_path "/proj") = false
  /\ predict_gpa str_builtin fs_untrained (PyDict student_no_major) (PyStr "/proj")
     = Raise (FileNotFoundError "❌ 模型目录不存在：/proj/models")
  /\ predict_gpa str_builtin fs_untrained (PyDict student_no_major) (PyStr "/proj")
     <> Raise (ValueError (missing_message (missing_features student_no_major))).
Proof.
  split; [vm_compute; reflexivity |]. split; [vm_compute; reflexivity |].
  split; [vm_compute; reflexivity |].
  intros H. vm_compute in H. discriminate H.
Qed.



(** C8 (as amended). On the predict path a numeric feature value is not
    checked against its declared range: whatever finite number (an int, a
    float or a bool) of moderate size a numeric feature of an accepted row
    (as in C1) is replaced by, in its range or not, [predict_gpa] does not
    reject the row and returns a prediction in [1.0, 4.0]. *)
Theorem out_of_range_accepted (py_str : PyObj -> string) (fs : FileSystem)
  (root : string) (row : gmap string cell)
  (ct : ColumnTransformer) (lr : LinearRegression) (f : string) (c : cell) :
  artifacts_on_disk fs root = true -> artifacts_load fs root ct lr ->
  well_formed ct = true -> length (coef_ lr) = output_dim ct ->
  has_all_keys row = true -> numeric_finite row = true ->
  all_seen ct row = true ->
  f ∈ numeric_features -> is_finite_number c = true ->
  moderate ct lr (<[f := c]> row) = true ->
  exists v,
    predict_gpa py_str fs (PyDict (<[f := c]> row)) (PyStr root) = Return v
    /\ (1 <= v)%Q /\ (v <= 4)%Q.
Proof.
  intros Hdisk Hload Hwf Hlen Hkeys Hnum Hseen Hf Hc _.
  destruct (predict_gpa_returns py_str fs root (<[f := c]> row) ct lr)
    as (_ & _ & Hp); try assumption.
  - apply has_all_keys_insert; assumption.
  - apply numeric_finite_insert; assumption.
  - rewrite all_seen_insert; assumption.
  - eexists. split; [exact Hp | apply clamp_round_bounds].
Qed.

Lemma out_of_range_accepted_witness :
  out_of_range 20 32 50 = true
  /\ exists v,
       predict_gpa str_builtin fs_trained
         (PyDict (<["attendance" := CInt 50]> student1)) (PyStr "/proj")
       = Return v
       /\ (1 <= v)%Q /\ (v <= 4)%Q.
Proof.
  split; [vm_compute; reflexivity |].
  apply (out_of_range_accepted str_builtin fs_trained "/proj" student1
           ct_demo lr_demo "attendance" (CInt 50)).
  - vm_compute; reflexivity.
  - split; vm_compute; reflexivity.
  - vm_compute; reflexivity.
  - vm_compute; reflexivity.
  - vm_compute; reflexivity.
  - vm_compute; reflexivity.
  - vm_compute; reflexivity.
  - apply list_elem_of_In. left. reflexivity.
  - vm_compute; reflexivity.
  - vm_compute; reflexivity.
Defined.

(** C8 as stated fails: a row whose attendance is 50, outside 20-32, is not
    rejected; [predict_gpa] returns 4.0 for it. *)
Lemma out_of_range_not_rejected :
  student_out_of_range !! "attendance" = Some (CInt 50)
  /\ out_of_range 20 32 50 = true
  /\ exists v,
       predict_gpa str_builtin fs_trained (PyDict student_out_of_range)
         (PyStr "/proj") = Return v
       /\ (v == 4)%Q.
Proof.
  split; [vm_compute; reflexivity |]. split; [vm_compute; reflexivity |].
  eexists. split; vm_compute; reflexivity.
Qed.

(** C9 (as amended). With a dict and an existing project directory, an
    absent transformer or predictor artifact makes [predict_gpa] raise the
    artifact-not-found error before anything is loaded, transformed or
    predicted, whatever the row; its message tells to train the model first
    when the models directory exists, and names the missing directory
    otherwise. *)
Theorem absent_artifact_error (py_str : PyObj -> string) (fs : FileSystem)
  (root : string) (row : gmap string cell) :
  os_path_isdir fs root = true ->
  os_path_exists fs (preprocessor_path root) = false
  \/ os_path_exists fs (model_path root) = false ->
  exists msg,
    predict_gpa py_str fs (PyDict row) (PyStr root) = Raise (FileNotFoundError msg)
    /\ (os_path_exists fs (models_dir root) = true ->
        mentions train_first msg = true)
    /\ (os_path_exists fs (models_dir root) = false ->
        msg = "❌ 模型目录不存在：" +:+ models_dir root).
Proof.
  intros Hdir Habsent. apply absent_not_on_disk in Habsent.
  destruct (predict_gpa_absent py_str fs root row Hdir Habsent)
    as (msg & Hmsg & Hhint).
  exists msg. split; [assumption |]. split; [assumption |].
  intros Hno. revert Hmsg. unfold predict_gpa, valid_root, root_path.
  fold (models_dir root). rewrite Hdir, Hno. cbn [negb]. congruence.
Qed.

Lemma absent_artifact_error_witness :
  exists msg,
    predict_gpa str_builtin fs_untrained (PyDict student1) (PyStr "/proj")
    = Raise (FileNotFoundError msg)
    /\ (os_path_exists fs_untrained (models_dir "/proj") = true ->
        mentions train_first msg = true)
    /\ (os_path_exists fs_untrained (models_dir "/proj") = false ->
        msg = "❌ 模型目录不存在：" +:+ models_dir "/proj").
Proof.
  apply (absent_artifact_error str_builtin fs_untrained "/proj" student1).
  - reflexivity.
  - left. reflexivity.
Defined.

(** C9 as stated fails: when the models directory itself is absent, both
    artifacts are absent and the message of the error names the directory
    without the instruction to train the model first. *)
Lemma absent_models_dir_message :
  os_path_exists fs_untrained (preprocessor_path "/proj") = false
  /\ os_path_exists fs_untrained (model_path "/proj") = false
  /\ predict_gpa str_builtin fs_untrained (PyDict student1) (PyStr "/proj")
     = Raise (FileNotFoundError "❌ 模型目录不存在：/proj/models")
  /\ mentions train_first "❌ 模型目录不存在：/proj/models" = false.
Proof. repeat split; vm_compute; reflexivity. Qed.

(** C10. [predict_gpa] first raises TypeError when [new_student_data] is
    not a dict, then NotADirectoryError when [project_root] is not a string
    naming an existing directory, whatever the artifacts on disk and the
    content of the row. *)
Theorem parameter_prechecks (py_str : PyObj -> string) (fs : FileSystem)
  (new_student_data project_root : PyObj) :
  (is_dict new_student_data = false ->
   predict_gpa py_str fs new_student_data project_root
   = Raise (TypeError "❌ new_student_data必须是字典类型"))
  /\ (is_dict new_student_data = true ->
      valid_root fs project_root = false ->
      predict_gpa py_str fs new_student_data project_root
      = Raise (NotADirectoryError
                 ("❌ 项目根目录无效：" +:+ py_str project_root))).
Proof.
  split.
  - intros Hd. destruct new_student_data; [reflexivity | reflexivity | discriminate].
  - intros Hd Hroot. destruct new_student_data as [| | row]; try discriminate.
    unfold predict_gpa. rewrite Hroot. reflexivity.
Qed.

Lemma parameter_prechecks_witness :
  predict_gpa str_builtin fs_trained PyNone (PyStr "/proj")
  = Raise (TypeError "❌ new_student_data必须是字典类型")
  /\ predict_gpa str_builtin fs_trained (PyDict student_no_major) PyNone
     = Raise (NotADirectoryError "❌ 项目根目录无效：None")
  /\ predict_gpa str_builtin fs_untrained (PyDict student_no_major)
       (PyStr "/nowhere")
     = Raise (NotADirectoryError "❌ 项目根目录无效：/nowhere").
Proof.
  split; [| split].
  - apply (parameter_prechecks str_builtin fs_trained PyNone (PyStr "/proj")).
    reflexivity.
  - apply (parameter_prechecks str_builtin fs_trained (PyDict student_no_major)
             PyNone); reflexivity.
  - apply (parameter_prechecks str_builtin fs_untrained
             (PyDict student_no_major) (PyStr "/nowhere")); reflexivity.
Defined.

(* ===================================================================== *)
(** * Further properties of the code *)
(* ===================================================================== *)

(** ** predict_gpa: the remaining error paths *)

Lemma check_numeric_first_failure (row : gmap string cell) (feats : list string) :
  forallb (fun f => is_numeric_dtype (infer_dtype (column row f))) feats = false ->
  exists pre feat post,
    feats = (pre ++ feat :: post)%list
    /\ forallb (fun f => is_numeric_dtype (infer_dtype (column row f))) pre = true
    /\ is_numeric_dtype (infer_dtype (column row feat)) = false
    /\ check_numeric row feats
       = Raise (TypeError ("❌ 特征" +:+ feat +:+ "必须是数值类型（整数/小数）")).
Proof.
  induction feats as [| f feats IH]; [discriminate |].
  cbn [forallb check_numeric].
  destruct (is_numeric_dtype (infer_dtype (column row f))) eqn:E; cbn [andb negb].
  - intros H. destruct (IH H) as (pre & feat & post & -> & Hpre & Hfeat & Hraise).
    exists (f :: pre), feat, post. cbn [forallb]. rewrite E, Hpre. auto.
  - intros _. exists [], f, feats. auto.
Qed.

(** X1. With both artifacts on disk and loading and all 8 keys present, a
    row with a numeric feature that is not numeric-typed makes [predict_gpa]
    raise the TypeError that names the first such feature in the order of
    [numeric_features]. *)
Theorem type_mismatch_rejection (py_str : PyObj -> string) (fs : FileSystem)
  (root : string) (row : gmap string cell) :
  artifacts_on_disk fs root = true -> loadable fs root = true ->
  has_all_keys row = true -> numeric_typed row = false ->
  exists pre feat post,
    numeric_features = (pre ++ feat :: post)%list
    /\ forallb (fun f => is_numeric_dtype (infer_dtype (column row f))) pre = true
    /\ is_numeric_dtype (infer_dtype (column row feat)) = false
    /\ predict_gpa py_str fs (PyDict row) (PyStr root)
       = Raise (TypeError ("❌ 特征" +:+ feat +:+ "必须是数值类型（整数/小数）")).
Proof.
  intros Hdisk Hload Hkeys Hnum.
  destruct (check_numeric_first_failure row numeric_features Hnum)
    as (pre & feat & post & Hsplit & Hpre & Hfeat & Hraise).
  exists pre, feat, post. repeat (split; [assumption |]).
  rewrite predict_gpa_on_disk by assumption.
  unfold loadable in Hload. unfold load_artifacts.
  destruct (joblib_load fs (model_path root)) as [? | m]; [discriminate |].
  destruct (joblib_load fs (preprocessor_path root)) as [? | p]; [discriminate |].
  cbn [bind fst snd].
  change (missing_features row) with (missing_columns required_features row).
  rewrite missing_columns_nil by exact Hkeys.
  rewrite Hraise. reflexivity.
Qed.

Lemma type_mismatch_rejection_witness :
  exists pre feat post,
    numeric_features = (pre ++ feat :: post)%list
    /\ forallb (fun f => is_numeric_dtype
                           (infer_dtype (column student_text_attendance f)))
         pre = true
    /\ is_numeric_dtype (infer_dtype (column student_text_attendance feat))
       = false
    /\ predict_gpa str_builtin fs_trained (PyDict student_text_attendance)
         (PyStr "/proj")
       = Raise (TypeError ("❌ 特征" +:+ feat +:+ "必须是数值类型（整数/小数）")).
Proof.
  apply (type_mismatch_rejection str_builtin fs_trained "/proj"
           student_text_attendance); vm_compute; reflexivity.
Defined.

(** X2. When both artifact files exist but one does not deserialize,
    [predict_gpa] raises the RuntimeError that wraps the text of the
    loading error, the regression's if both fail, whatever the row. *)
Theorem load_failure_wrapped (py_str : PyObj -> string) (fs : FileSystem)
  (root : string) (row : gmap string cell) :
  artifacts_on_disk fs root = true -> loadable fs root = false ->
  exists e,
    (joblib_load fs (model_path root) = inl e
     \/ (exists m, joblib_load fs (model_path root) = inr m)
        /\ joblib_load fs (preprocessor_path root) = inl e)
    /\ predict_gpa py_str fs (PyDict row) (PyStr root)
       = Raise (RuntimeError ("❌ 加载模型/流水线失败：" +:+ e)).
Proof.
  intros Hdisk Hload. rewrite predict_gpa_on_disk by assumption.
  unfold loadable in Hload. unfold load_artifacts.
  destruct (joblib_load fs (model_path root)) as [e | m].
  - exists e. split; [left; reflexivity | reflexivity].
  - destruct (joblib_load fs (preprocessor_path root)) as [e | p];
      [| discriminate].
    exists e. split; [right; eauto | reflexivity].
Qed.

Lemma load_failure_wrapped_witness :
  exists e,
    (joblib_load fs_corrupt (model_path "/proj") = inl e
     \/ (exists m, joblib_load fs_corrupt (model_path "/proj") = inr m)
        /\ joblib_load fs_corrupt (preprocessor_path "/proj") = inl e)
    /\ predict_gpa str_builtin fs_corrupt (PyDict student_no_major)
         (PyStr "/proj")
       = Raise (RuntimeError ("❌ 加载模型/流水线失败：" +:+ e)).
Proof.
  apply (load_failure_wrapped str_builtin fs_corrupt "/proj" student_no_major);
    vm_compute; reflexivity.
Defined.

(** *** What predict_gpa can return *)

Lemma predict_gpa_return_inv (py_str : PyObj -> string) (fs : FileSystem)
  (new_student_data project_root : PyObj) (v : Q) :
  predict_gpa py_str fs new_student_data project_root = Return v ->
  exists raw, v = round2 (np_clip raw 1 4).
Proof.
  unfold predict_gpa.
  destruct new_student_data as [| | row]; try discriminate.
  destruct (negb (valid_root fs project_root)); [discriminate |].
  destruct (negb (os_path_exists fs _)); [discriminate |].
  destruct (negb (os_path_exists fs _)); [discriminate |].
  destruct (negb (os_path_exists fs _)); [discriminate |].
  destruct (load_artifacts fs _ _) as [[model preprocessor] | e];
    [| discriminate].
  cbn [bind fst snd].
  destruct (missing_features row); [| discriminate].
  destruct (check_numeric row numeric_features); [| discriminate].
  cbn [bind].
  destruct (call_transform preprocessor row) as [x | e]; [| discriminate].
  cbn [bind].
  destruct (call_predict model x) as [raw | e]; [| discriminate].
  cbn [bind]. intros [= <-]. exists raw. reflexivity.
Qed.



(** *** The same number under another type *)

Lemma to_float_Some_numeric (c : cell) (x : Q) :
  to_float c = Some x -> is_numeric_dtype (infer_dtype c) = true.
Proof.
  destruct c as [z | q | b | s | | | n]; try reflexivity; try discriminate.
  unfold to_float. destruct (is_numeric_dtype (infer_dtype (CInt z)));
    [reflexivity | discriminate].
Qed.

Section SameNumber.
Variable row : gmap string cell.
Variable f : string.
Variables c c' : cell.
Variable x : Q.
Hypothesis Hc : to_float c = Some x.
Hypothesis Hc' : to_float c' = Some x.

Lemma missing_columns_same_number (names : list string) :
  missing_columns names (<[f := c]> row)
  = missing_columns names (<[f := c']> row).
Proof.
  unfold missing_columns. induction names as [| g names IH]; [reflexivity |].
  destruct (decide (f = g)) as [-> | Hne].
  - rewrite !filter_cons_False, IH; [reflexivity | |];
      rewrite lookup_insert_eq; discriminate.
  - destruct (row !! g) as [v |] eqn:E.
    + rewrite !filter_cons_False, IH; [reflexivity | |];
        rewrite lookup_insert_ne by assumption; congruence.
    + rewrite !filter_cons_True, IH; [reflexivity | |];
        rewrite lookup_insert_ne by assumption; assumption.
Qed.

Lemma check_numeric_same_number (names : list string) :
  check_numeric (<[f := c]> row) names = check_numeric (<[f := c']> row) names.
Proof.
  induction names as [| g names IH]; [reflexivity |].
  cbn [check_numeric]. rewrite IH, !column_insert.
  destruct (decide (f = g)); [| reflexivity].
  rewrite (to_float_Some_numeric c x Hc), (to_float_Some_numeric c' x Hc').
  reflexivity.
Qed.

Lemma to_floats_same_number (names : list string) :
  to_floats (<[f := c]> row) names = to_floats (<[f := c']> row) names.
Proof.
  induction names as [| g names IH]; [reflexivity |].
  cbn [to_floats]. rewrite IH, !column_insert.
  destruct (decide (f = g)); [| reflexivity].
  rewrite (to_float64_finite c x Hc), (to_float64_finite c' x Hc').
  reflexivity.
Qed.

Lemma transform_same_number (ct : ColumnTransformer) :
  ~ In f cat_features ->
  transform ct (<[f := c]> row) = transform ct (<[f := c']> row).
Proof.
  intros Hf. unfold transform.
  rewrite missing_columns_same_number, to_floats_same_number.
  replace (map (column (<[f := c]> row)) cat_features)
    with (map (column (<[f := c']> row)) cat_features); [reflexivity |].
  apply map_ext_in. intros g Hg. rewrite !column_insert.
  destruct (decide (f = g)) as [-> | _]; [contradiction | reflexivity].
Qed.
End SameNumber.

(** X5. The type under which a numeric feature holds its number does not
    matter: two rows that differ only in a numeric feature, read as the
    same float64 in both (30 and 30.0, 1 and True), get the same result
    from [predict_gpa]. *)
Theorem numeric_type_irrelevant (py_str : PyObj -> string) (fs : FileSystem)
  (project_root : PyObj) (row : gmap string cell) (f : string)
  (c c' : cell) (x : Q) :
  f ∈ numeric_features -> to_float c = Some x -> to_float c' = Some x ->
  predict_gpa py_str fs (PyDict (<[f := c]> row)) project_root
  = predict_gpa py_str fs (PyDict (<[f := c']> row)) project_root.
Proof.
  intros Hf Hc Hc'. rewrite list_elem_of_In in Hf.
  assert (Hcat : ~ In f cat_features).
  { simpl in Hf |- *. intuition (subst; discriminate). }
  unfold predict_gpa, missing_features.
  fold (missing_columns required_features (<[f := c]> row)).
  fold (missing_columns required_features (<[f := c']> row)).
  rewrite (missing_columns_same_number row f c c'),
    (check_numeric_same_number row f c c' x Hc Hc').
  destruct (negb (valid_root fs project_root)); [reflexivity |].
  destruct (negb (os_path_exists fs _)); [reflexivity |].
  destruct (negb (os_path_exists fs _)); [reflexivity |].
  destruct (negb (os_path_exists fs _)); [reflexivity |].
  destruct (load_artifacts fs _ _) as [[model preprocessor] | e];
    [| reflexivity].
  cbn [bind fst snd].
  destruct (missing_columns required_features (<[f := c']> row));
    [| reflexivity].
  destruct (check_numeric (<[f := c']> row) numeric_features); [| reflexivity].
  cbn [bind]. destruct preprocessor as [ct | lr]; cbn [call_transform].
  - rewrite (transform_same_number row f c c' x Hc Hc' ct Hcat). reflexivity.
  - reflexivity.
Qed.

Lemma numeric_type_irrelevant_witness :
  predict_gpa str_builtin fs_trained
    (PyDict (<["attendance" := CInt 30]> student1)) (PyStr "/proj")
  = predict_gpa str_builtin fs_trained
      (PyDict (<["attendance" := CFloat 30]> student1)) (PyStr "/proj").
Proof.
  apply (numeric_type_irrelevant str_builtin fs_trained (PyStr "/proj")
           student1 "attendance" (CInt 30) (CFloat 30) 30%Q).
  - apply (bool_decide_unpack _). vm_compute. exact I.
  - reflexivity.
  - reflexivity.
Defined.

(** ** The outlier loop on clean and on cleaned frames *)

Lemma within_rules_clipped (s : Student) :
  within_rules s = true -> clipped s = s.
Proof.
  unfold within_rules. cbn [forallb clip_rules fst snd get_col].
  intros H. repeat (apply andb_prop in H as [?H H]).
  repeat match goal with
         | Hn : negb (out_of_range _ _ _) = true |- _ =>
             apply negb_true_iff, series_clip_in_range in Hn
         end.
  destruct s. unfold clipped. cbn in *. congruence.
Qed.

Lemma within_rules_error_count (df : list Student) (c : Column) (lo hi : Q) :
  In (c, (lo, hi)) clip_rules -> forallb within_rules df = true ->
  error_count c lo hi df = 0%nat.
Proof.
  intros Hrule. unfold error_count.
  induction df as [| s df IH]; [reflexivity |].
  cbn [forallb]. intros H. apply andb_prop in H as [Hs Hdf].
  rewrite filter_cons_False; [auto |].
  unfold within_rules in Hs. rewrite forallb_forall in Hs.
  specialize (Hs _ Hrule). cbn [fst snd] in Hs.
  apply negb_true_iff in Hs. congruence.
Qed.

Lemma clip_outliers_within (df : list Student) :
  forallb within_rules df = true -> clip_outliers df = (df, []).
Proof.
  intros H. rewrite clip_outliers_eq. f_equal.
  - rewrite <- (map_id df) at 2. apply map_ext_in. intros s Hs.
    apply within_rules_clipped.
    rewrite forallb_forall in H. apply H. exact Hs.
  - unfold clip_rules. cbn [flat_map report_line].
    rewrite !within_rules_error_count by (try assumption; simpl; tauto).
    reflexivity.
Qed.

Lemma out_of_range_series_clip (lo hi x : Q) :
  (lo <= hi)%Q -> out_of_range lo hi (series_clip lo hi x) = false.
Proof.
  intros Hlh. destruct (series_clip_bounds lo hi x Hlh) as [H1 H2].
  unfold out_of_range, Qlt_bool.
  apply Qle_bool_iff in H1, H2. rewrite H1, H2. reflexivity.
Qed.

Lemma within_rules_of_clipped (s : Student) : within_rules (clipped s) = true.
Proof.
  unfold within_rules. cbn [forallb clip_rules fst snd get_col clipped
    gpa attendance homework_completion lib_borrow class_interaction exam_score].
  rewrite !out_of_range_series_clip by discriminate. reflexivity.
Qed.

(** X6. On a frame whose six clipped columns already lie within their
    ranges, the outlier loop returns the frame as it is and reports
    nothing. *)
Theorem clean_frame_untouched (df : list Student) :
  forallb within_rules df = true -> clip_outliers df = (df, []).
Proof. apply clip_outliers_within. Qed.

Lemma clean_frame_untouched_witness : clip_outliers df_demo = (df_demo, []).
Proof. apply (clean_frame_untouched df_demo). vm_compute. reflexivity. Defined.

(** X7. The outlier loop is idempotent: run on its own output it changes
    no row and reports no correction. *)
Theorem clip_outliers_idempotent (df : list Student) :
  clip_outliers (fst (clip_outliers df)) = (fst (clip_outliers df), []).
Proof.
  apply clip_outliers_within. rewrite clip_outliers_eq. cbn [fst].
  apply forallb_forall. intros s Hs.
  apply in_map_iff in Hs as (s0 & <- & _). apply within_rules_of_clipped.
Qed.

(** ** The fitted transformer on its own training frame *)

Lemma frame_row_valid (s : Student) :
  has_all_keys (frame_row s) = true /\ numeric_finite (frame_row s) = true.
Proof. split; vm_compute; reflexivity. Qed.

Lemma frame_row_seen (fsqrt : Q -> Q) (df : list Student) (s : Student) :
  In s df ->
  all_seen {| num := scaler_fit fsqrt df; cat := encoder_fit df |} (frame_row s)
  = true.
Proof.
  intros Hs.
  apply fitted_seen
    with (m := major s) (g := gender s) (c := club_participation s);
    try reflexivity; apply in_map, Hs.
Qed.

(** X8. A transformer fitted on a frame transforms every row of that frame
    without error, to a vector of its output dimension: the fit-then-
    transform of the training split cannot meet an unseen category. *)
Theorem training_rows_transform (fsqrt : Q -> Q) (df : list Student)
  (ct : ColumnTransformer) (s : Student) :
  fit fsqrt df = Some ct -> In s df ->
  exists v, transform ct (frame_row s) = Return v
            /\ length v = output_dim ct.
Proof.
  intros Hfit Hs. pose proof (fit_well_formed _ _ _ Hfit) as Hwf.
  exists (map Finite (feature_vector ct (frame_row s))). split.
  - apply transform_returns; try assumption; try apply frame_row_valid.
    apply fit_inv in Hfit as [_ ->]. apply frame_row_seen. exact Hs.
  - rewrite length_map. apply length_feature_vector. exact Hwf.
Qed.

Lemma training_rows_transform_witness :
  exists v, transform ct_demo (frame_row first_training_row) = Return v
            /\ length v = output_dim ct_demo.
Proof.
  apply (training_rows_transform sqrt_approx df_demo ct_demo first_training_row).
  - reflexivity.
  - left. reflexivity.
Defined.

(** *** Indicator blocks *)

Section Indicators.
Context {A : Type} (embed : A -> cell).
Hypothesis embed_eqb :
  forall a b, cell_eqb (embed a) (embed b) = true <-> a = b.

Lemma indicator_sum_absent (x : A) (l : list A) :
  ~ In x l ->
  (Qsum (map (fun c => if cell_eqb (embed x) c then 1 else 0) (map embed l))
   == 0)%Q.
Proof.
  induction l as [| a l IH]; intros Hx; [reflexivity |].
  cbn [map]. rewrite Qsum_cons.
  destruct (cell_eqb (embed x) (embed a)) eqn:E.
  - apply embed_eqb in E. subst a. exfalso. apply Hx. left. reflexivity.
  - rewrite IH; [reflexivity |]. intros H. apply Hx. right. exact H.
Qed.

Lemma indicator_sum_present (x : A) (l : list A) :
  List.NoDup l -> In x l ->
  (Qsum (map (fun c => if cell_eqb (embed x) c then 1 else 0) (map embed l))
   == 1)%Q.
Proof.
  induction 1 as [| a l Ha Hl IH]; intros Hx; [destruct Hx |].
  cbn [map]. rewrite Qsum_cons.
  destruct (cell_eqb (embed x) (embed a)) eqn:E.
  - apply embed_eqb in E. subst a.
    rewrite indicator_sum_absent by assumption. reflexivity.
  - destruct Hx as [-> | Hx].
    + assert (Hrefl : cell_eqb (embed x) (embed x) = true)
        by (apply embed_eqb; reflexivity).
      congruence.
    + rewrite IH by assumption. reflexivity.
Qed.

(** The block of a seen value over a vocabulary without repetition: all
    zero for the first category, a single 1 otherwise. *)
Lemma indicators_sum (x : A) (l : list A) :
  List.NoDup l -> In x l ->
  (Qsum (indicators (map embed l) (embed x))
   == if cell_eqb (embed x) (embed (hd x l)) then 0 else 1)%Q.
Proof.
  intros Hl Hx. unfold indicators. destruct l as [| a l]; [destruct Hx |].
  cbn [map tail hd]. inversion Hl as [| ? ? Ha Hl']; subst.
  destruct (cell_eqb (embed x) (embed a)) eqn:E.
  - apply embed_eqb in E. subst a. apply indicator_sum_absent. assumption.
  - destruct Hx as [-> | Hx].
    + assert (Hrefl : cell_eqb (embed x) (embed x) = true)
        by (apply embed_eqb; reflexivity).
      congruence.
    + apply indicator_sum_present; assumption.
Qed.
End Indicators.

Lemma CStr_eqb (a b : string) : cell_eqb (CStr a) (CStr b) = true <-> a = b.
Proof. rewrite cell_eqb_CStr. apply String.eqb_eq. Qed.

Lemma CInt_eqb (a b : Z) : cell_eqb (CInt a) (CInt b) = true <-> a = b.
Proof. rewrite cell_eqb_CInt. apply Z.eqb_eq. Qed.

Lemma unique_strings_NoDup (l : list string) :
  List.NoDup (np_unique String.compare l).
Proof.
  apply NoDup_ListNoDup, np_unique_NoDup.
  - apply String_as_OT.cmp_eq.
  - apply String.compare_antisym.
  - apply string_compare_trans.
Qed.

Lemma unique_ints_NoDup (l : list Z) : List.NoDup (np_unique Z.compare l).
Proof.
  apply NoDup_ListNoDup, np_unique_NoDup.
  - apply Z.compare_eq_iff.
  - intros x y. apply Z.compare_antisym.
  - apply Z_compare_trans.
Qed.

(** X10. For a transformer fitted on a frame and a row of that frame, each
    of the three indicator blocks holds at most one 1: it is all zero when
    the row has the first category of the sorted vocabulary, and holds
    exactly one 1 otherwise. *)
Theorem indicator_blocks_one_hot (df : list Student) (s : Student) :
  In s df ->
  let majors := np_unique String.compare (map major df) in
  let genders := np_unique Z.compare (map gender df) in
  let clubs := np_unique Z.compare (map club_participation df) in
  (Qsum (indicators (map CStr majors) (column (frame_row s) "major"))
   == if String.eqb (major s) (hd (major s) majors) then 0 else 1)%Q
  /\ (Qsum (indicators (map CInt genders) (column (frame_row s) "gender"))
      == if Z.eqb (gender s) (hd (gender s) genders) then 0 else 1)%Q
  /\ (Qsum (indicators (map CInt clubs)
              (column (frame_row s) "club_participation"))
      == if Z.eqb (club_participation s) (hd (club_participation s) clubs)
         then 0 else 1)%Q.
Proof.
  intros Hs majors genders clubs.
  change (column (frame_row s) "major") with (CStr (major s)).
  change (column (frame_row s) "gender") with (CInt (gender s)).
  change (column (frame_row s) "club_participation")
    with (CInt (club_participation s)).
  rewrite <- cell_eqb_CStr, <- !cell_eqb_CInt.
  split; [| split].
  - apply (indicators_sum CStr CStr_eqb); [apply unique_strings_NoDup |].
    apply In_unique_strings, in_map, Hs.
  - apply (indicators_sum CInt CInt_eqb); [apply unique_ints_NoDup |].
    apply In_unique_ints, in_map, Hs.
  - apply (indicators_sum CInt CInt_eqb); [apply unique_ints_NoDup |].
    apply In_unique_ints, in_map, Hs.
Qed.

Lemma indicator_blocks_one_hot_witness :
  (Qsum (indicators (map CStr (np_unique String.compare (map major df_demo)))
           (column (frame_row first_training_row) "major")) == 0)%Q
  /\ (Qsum (indicators (map CInt (np_unique Z.compare (map gender df_demo)))
              (column (frame_row first_training_row) "gender")) == 1)%Q
  /\ (Qsum (indicators
              (map CInt (np_unique Z.compare (map club_participation df_demo)))
              (column (frame_row first_training_row) "club_participation"))
      == 1)%Q.
Proof.
  apply (indicator_blocks_one_hot df_demo first_training_row).
  left. reflexivity.
Defined.

(** *** Row order *)

Section AscendingUnique.
Context {A : Type} (cmp : A -> A -> comparison).
Hypothesis cmp_eq : forall x y, cmp x y = Eq <-> x = y.
Hypothesis cmp_antisym : forall x y, cmp x y = CompOpp (cmp y x).
Hypothesis cmp_trans :
  forall x y z, cmp x y = Lt -> cmp y z = Lt -> cmp x z = Lt.

Lemma cmp_irrefl (x : A) : cmp x x <> Lt.
Proof.
  assert (H : cmp x x = Eq) by (apply cmp_eq; reflexivity). congruence.
Qed.

Lemma cmp_asym (x y : A) : cmp x y = Lt -> cmp y x <> Lt.
Proof. intros H. rewrite cmp_antisym, H. discriminate. Qed.

(** Two strictly increasing lists with the same members are equal. *)
Lemma ascending_same_members (l l' : list A) :
  ascending cmp l -> ascending cmp l' ->
  (forall x, In x l <-> In x l') -> l = l'.
Proof.
  unfold ascending. intros Hl. revert l'.
  induction Hl as [| a t Ht IH Ha]; intros l' Hl' Hsame.
  - destruct l' as [| b t']; [reflexivity |].
    exfalso. apply (Hsame b). left. reflexivity.
  - destruct Hl' as [| b t' Ht' Hb].
    + exfalso. apply (Hsame a). left. reflexivity.
    + rewrite List.Forall_forall in Ha, Hb.
      assert (Hab : a = b).
      { destruct (proj1 (Hsame a) (or_introl eq_refl)) as [Hba | Hat'];
          [symmetry; exact Hba |].
        destruct (proj2 (Hsame b) (or_introl eq_refl)) as [Hab | Hbt];
          [exact Hab |].
        exfalso. apply (cmp_asym a b); auto. }
      subst b. f_equal. apply IH; [assumption |].
      intros x. split; intros Hx.
      * destruct (proj1 (Hsame x) (or_intror Hx)) as [Hax | Hxt']; [| exact Hxt'].
        subst x. exfalso. apply (cmp_irrefl a). auto.
      * destruct (proj2 (Hsame x) (or_intror Hx)) as [Hax | Hxt]; [| exact Hxt].
        subst x. exfalso. apply (cmp_irrefl a). auto.
Qed.

Lemma np_unique_permutation (l l' : list A) :
  Permutation l l' -> np_unique cmp l = np_unique cmp l'.
Proof.
  intros Hp. apply ascending_same_members.
  - apply np_unique_ascending; assumption.
  - apply np_unique_ascending; assumption.
  - intros x. rewrite <- !list_elem_of_In.
    rewrite !(elem_of_np_unique cmp cmp_eq). rewrite !list_elem_of_In.
    split; apply Permutation_in; [assumption | symmetry; assumption].
Qed.
End AscendingUnique.

(** X11. The vocabularies of the encoder, and with them the dropped
    reference categories and the layout of the indicator columns, do not
    depend on the order of the rows of the training frame. *)
Theorem vocabulary_order_independent (df df' : list Student) :
  Permutation df df' -> encoder_fit df = encoder_fit df'.
Proof.
  intros Hp. unfold encoder_fit.
  rewrite (np_unique_permutation String.compare String_as_OT.cmp_eq
             String.compare_antisym string_compare_trans
             (map major df) (map major df'))
    by (apply Permutation_map; exact Hp).
  rewrite (np_unique_permutation Z.compare Z.compare_eq_iff
             (fun x y => Z.compare_antisym y x) Z_compare_trans
             (map gender df) (map gender df'))
    by (apply Permutation_map; exact Hp).
  rewrite (np_unique_permutation Z.compare Z.compare_eq_iff
             (fun x y => Z.compare_antisym y x) Z_compare_trans
             (map club_participation df) (map club_participation df'))
    by (apply Permutation_map; exact Hp).
  reflexivity.
Qed.

Lemma vocabulary_order_independent_witness :
  encoder_fit df_demo = encoder_fit df_demo_reversed.
Proof.
  apply (vocabulary_order_independent df_demo df_demo_reversed).
  apply Permutation_rev.
Defined.

(** ** The GUI in front of predict_gpa *)

Lemma Qle_bool_inject_Z (a b : Z) :
  Qle_bool (inject_Z a) (inject_Z b) = true -> (a <= b)%Z.
Proof. intros H. apply Qle_bool_iff in H. rewrite Zle_Qle. exact H. Qed.

Lemma small_int_numeric (z : Z) :
  (0 <= z <= 100)%Z -> is_numeric_dtype (infer_dtype (CInt z)) = true.
Proof.
  intros [H0 H1]. unfold infer_dtype.
  assert (Hlo : (- 2 ^ 63 <=? z)%Z = true) by (apply Z.leb_le; lia).
  assert (Hhi : (z <? 2 ^ 63)%Z = true) by (apply Z.ltb_lt; lia).
  rewrite Hlo, Hhi. reflexivity.
Qed.

Lemma float_of_small_int (row : gmap string cell) (f : string) (z : Z) :
  column row f = CInt z -> (0 <= z <= 100)%Z -> float_of row f = inject_Z z.
Proof.
  intros Hc Hz. unfold float_of. rewrite Hc. unfold to_float.
  rewrite small_int_numeric by assumption. reflexivity.
Qed.

Lemma float_of_float (row : gmap string cell) (f : string) (q : Q) :
  column row f = CFloat q -> float_of row f = q.
Proof. intros Hc. unfold float_of. rewrite Hc. reflexivity. Qed.

Section GuiFacts.
Variable py_int : string -> string + Z.
Variable py_float : string -> string + Q.
Variable str_float : Q -> string.

Lemma accepted_form (form : Form) (row : gmap string cell) :
  gui_get_input_data py_int py_float str_float form = inr row ->
  has_all_keys row = true /\ numeric_typed row = true
  /\ entries_within row
  /\ column row "major" = CStr (var_major form)
  /\ column row "gender" = CInt (var_gender form)
  /\ column row "club_participation" = CInt (var_club_participation form).
Proof.
  unfold gui_get_input_data, range_checks.
  cbn [check_ranges convert entry_text entry_name bound_value].
  destruct (py_int (var_attendance form)) as [? | a]; [discriminate |].
  destruct (Qle_bool (inject_Z 20) (inject_Z a)
            && Qle_bool (inject_Z a) (inject_Z 32)) eqn:Ea;
    cbn [negb]; [| discriminate].
  destruct (py_float (var_homework_completion form)) as [? | h];
    [discriminate |].
  destruct (Qle_bool (3 # 5) h && Qle_bool h 1) eqn:Eh;
    cbn [negb]; [| discriminate].
  destruct (py_int (var_lib_borrow form)) as [? | b]; [discriminate |].
  destruct (Qle_bool (inject_Z 0) (inject_Z b)
            && Qle_bool (inject_Z b) (inject_Z 10)) eqn:Eb;
    cbn [negb]; [| discriminate].
  destruct (py_int (var_class_interaction form)) as [? | c]; [discriminate |].
  destruct (Qle_bool (inject_Z 0) (inject_Z c)
            && Qle_bool (inject_Z c) (inject_Z 20)) eqn:Ec;
    cbn [negb]; [| discriminate].
  destruct (py_int (var_exam_score form)) as [? | x]; [discriminate |].
  destruct (Qle_bool (inject_Z 60) (inject_Z x)
            && Qle_bool (inject_Z x) (inject_Z 100)) eqn:Ex;
    cbn [negb]; [| discriminate].
  intros [= <-].
  apply andb_prop in Ea as [Ea1 Ea2]. apply andb_prop in Eh as [Eh1 Eh2].
  apply andb_prop in Eb as [Eb1 Eb2]. apply andb_prop in Ec as [Ec1 Ec2].
  apply andb_prop in Ex as [Ex1 Ex2].
  split; [vm_compute; reflexivity |]. split.
  - unfold numeric_typed. cbn [forallb numeric_features].
    assert (Ha : column
                   (<["exam_score" := CInt x]> (<["class_interaction" := CInt c]>
                    (<["lib_borrow" := CInt b]>
                    (<["homework_completion" := CFloat h]>
                    (<["attendance" := CInt a]>
                    (<["exam_score" := CStr (var_exam_score form)]>
                    (<["class_interaction" := CStr (var_class_interaction form)]>
                    (<["club_participation" := CInt (var_club_participation form)]>
                    (<["lib_borrow" := CStr (var_lib_borrow form)]>
                    (<["homework_completion" := CStr (var_homework_completion form)]>
                    (<["attendance" := CStr (var_attendance form)]>
                    (<["gender" := CInt (var_gender form)]>
                    (<["major" := CStr (var_major form)]> ∅)))))))))))))
                   "attendance" = CInt a) by reflexivity.
    rewrite Ha.
    match goal with |- context [column ?r "homework_completion"] =>
      change (column r "homework_completion") with (CFloat h);
      change (column r "lib_borrow") with (CInt b);
      change (column r "class_interaction") with (CInt c);
      change (column r "exam_score") with (CInt x)
    end.
    apply Qle_bool_inject_Z in Ea1, Ea2, Eb1, Eb2, Ec1, Ec2, Ex1, Ex2.
    rewrite !small_int_numeric by lia. reflexivity.
  - split; [| repeat split; reflexivity].
    intros feat dtype min_val max_val Hin. simpl in Hin.
    pose proof (Qle_bool_inject_Z _ _ Ea1). pose proof (Qle_bool_inject_Z _ _ Ea2).
    pose proof (Qle_bool_inject_Z _ _ Eb1). pose proof (Qle_bool_inject_Z _ _ Eb2).
    pose proof (Qle_bool_inject_Z _ _ Ec1). pose proof (Qle_bool_inject_Z _ _ Ec2).
    pose proof (Qle_bool_inject_Z _ _ Ex1). pose proof (Qle_bool_inject_Z _ _ Ex2).
    apply Qle_bool_iff in Ea1, Ea2, Eh1, Eh2, Eb1, Eb2, Ec1, Ec2, Ex1, Ex2.
    destruct Hin as [Hr | [Hr | [Hr | [Hr | [Hr | []]]]]];
      injection Hr as <- <- <- <-; cbn [entry_name bound_value].
    + rewrite (float_of_small_int _ _ a) by (reflexivity || lia). auto.
    + rewrite (float_of_float _ _ h) by reflexivity. auto.
    + rewrite (float_of_small_int _ _ b) by (reflexivity || lia). auto.
    + rewrite (float_of_small_int _ _ c) by (reflexivity || lia). auto.
    + rewrite (float_of_small_int _ _ x) by (reflexivity || lia). auto.
Qed.
End GuiFacts.

Lemma within_not_out_of_range (lo hi x : Q) :
  (lo <= x)%Q -> (x <= hi)%Q -> out_of_range lo hi x = false.
Proof.
  intros H1 H2. unfold out_of_range, Qlt_bool.
  apply Qle_bool_iff in H1, H2. rewrite H1, H2. reflexivity.
Qed.

(** X12. A feature dict that [_get_input_data] hands to [_predict] has the
    8 required keys with the form's major, gender and club participation,
    numeric-typed numeric features, and every numeric feature within the
    bounds of [range_checks]; these are the ranges the training path clips
    to, so no such value would be corrected by the outlier loop. *)
Theorem gui_accepts_only_in_range (py_int : string -> string + Z)
  (py_float : string -> string + Q) (str_float : Q -> string)
  (form : Form) (row : gmap string cell) :
  gui_get_input_data py_int py_float str_float form = inr row ->
  has_all_keys row = true /\ numeric_typed row = true
  /\ entries_within row
  /\ (forall c lo hi, In (c, (lo, hi)) clip_rules -> c <> Gpa ->
      out_of_range lo hi (float_of row (column_name c)) = false)
  /\ column row "major" = CStr (var_major form)
  /\ column row "gender" = CInt (var_gender form)
  /\ column row "club_participation" = CInt (var_club_participation form).
Proof.
  intros H. apply accepted_form in H
    as (Hkeys & Hnum & Hwithin & Hmajor & Hgender & Hclub).
  repeat (split; [assumption |]). split; [| auto].
  intros c lo hi Hin Hc. simpl in Hin.
  destruct Hin as [Hr | [Hr | [Hr | [Hr | [Hr | [Hr | []]]]]]];
    injection Hr as <- <- <-; try congruence; cbn [column_name].
  - destruct (Hwithin EAttendance _ _ _ (or_introl eq_refl)).
    apply within_not_out_of_range; assumption.
  - destruct (Hwithin EHomeworkCompletion _ _ _ (or_intror (or_introl eq_refl))).
    apply within_not_out_of_range; assumption.
  - destruct (Hwithin ELibBorrow _ _ _
                (or_intror (or_intror (or_introl eq_refl)))).
    apply within_not_out_of_range; assumption.
  - destruct (Hwithin EClassInteraction _ _ _
                (or_intror (or_intror (or_intror (or_introl eq_refl))))).
    apply within_not_out_of_range; assumption.
  - destruct (Hwithin EExamScore _ _ _
                (or_intror (or_intror (or_intror (or_intror (or_introl eq_refl)))))).
    apply within_not_out_of_range; assumption.
Qed.

Lemma gui_accepts_only_in_range_witness :
  gui_get_input_data int_builtin float_builtin float_str_builtin form1
  = inr student1
  /\ has_all_keys student1 = true /\ numeric_typed student1 = true
  /\ entries_within student1.
Proof.
  split; [vm_compute; reflexivity |].
  destruct (gui_accepts_only_in_range int_builtin float_builtin
              float_str_builtin form1 student1)
    as (Hkeys & Hnum & Hwithin & _); [vm_compute; reflexivity |].
  auto.
Defined.

(** X14. When the form is accepted and an artifact is absent under an
    existing project directory, [_predict] ends in the "model missing"
    error box, whose text tells to run main.py to train the model, also
    when the models directory itself is absent. *)
Theorem gui_model_missing (py_int : string -> string + Z)
  (py_float : string -> string + Q) (str_float : Q -> string)
  (py_str : PyObj -> string) (fs : FileSystem) (root : string)
  (form : Form) (row : gmap string cell) :
  gui_get_input_data py_int py_float str_float form = inr row ->
  os_path_isdir fs root = true ->
  os_path_exists fs (preprocessor_path root) = false
  \/ os_path_exists fs (model_path root) = false ->
  exists text,
    gui_predict py_int py_float str_float py_str fs root form
    = ModelMissing text
    /\ mentions "请先运行python main.py训练模型" text = true.
Proof.
  intros Hrow Hdir Habsent. apply absent_not_on_disk in Habsent.
  destruct (predict_gpa_absent py_str fs root row Hdir Habsent)
    as (msg & Hmsg & _).
  unfold gui_predict. rewrite Hrow, Hmsg.
  eexists. split; [reflexivity |].
  do 3 apply mentions_append. vm_compute. reflexivity.
Qed.

Lemma gui_model_missing_witness :
  exists text,
    gui_predict int_builtin float_builtin float_str_builtin str_builtin
      fs_untrained "/proj" form1 = ModelMissing text
    /\ mentions "请先运行python main.py训练模型" text = true.
Proof.
  apply (gui_model_missing int_builtin float_builtin float_str_builtin
           str_builtin fs_untrained "/proj" form1 student1).
  - vm_compute; reflexivity.
  - reflexivity.
  - left. reflexivity.
Defined.

(** X15. When [_predict] shows a prediction, the form was accepted with
    every entry within its bounds, the value shown lies in [1.0, 4.0], and
    the rating shown is the one [get_rating] of main.py gives to that
    value. *)
Theorem gui_prediction_shown (py_int : string -> string + Z)
  (py_float : string -> string + Q) (str_float : Q -> string)
  (py_str : PyObj -> string) (fs : FileSystem) (root : string)
  (form : Form) (pred_gpa : Q) (rating : string) :
  gui_predict py_int py_float str_float py_str fs root form
  = Predicted pred_gpa rating ->
  (1 <= pred_gpa)%Q /\ (pred_gpa <= 4)%Q
  /\ rating = get_rating pred_gpa
  /\ exists row,
       gui_get_input_data py_int py_float str_float form = inr row
       /\ entries_within row
       /\ predict_gpa py_str fs (PyDict row) (PyStr root) = Return pred_gpa.
Proof.
  unfold gui_predict.
  destruct (gui_get_input_data py_int py_float str_float form)
    as [text | row] eqn:Hrow; [discriminate |].
  destruct (predict_gpa py_str fs (PyDict row) (PyStr root))
    as [v | e] eqn:Hp; [| destruct e; discriminate].
  intros [= <- <-].
  destruct (predict_gpa_return_inv _ _ _ _ _ Hp) as [raw ->].
  destruct (clamp_round_bounds raw) as [H1 H4].
  split; [assumption |]. split; [assumption |]. split; [reflexivity |].
  exists row. split; [reflexivity |]. split; [| exact Hp].
  apply accepted_form in Hrow. tauto.
Qed.

Lemma gui_prediction_shown_witness :
  (1 <= 376 # 100)%Q /\ (376 # 100 <= 4)%Q
  /\ "优秀（建议申请奖学金）" = get_rating (376 # 100)
  /\ exists row,
       gui_get_input_data int_builtin float_builtin float_str_builtin form1
       = inr row
       /\ entries_within row
       /\ predict_gpa str_builtin fs_trained (PyDict row) (PyStr "/proj")
          = Return (376 # 100)%Q.
Proof.
  apply (gui_prediction_shown int_builtin float_builtin float_str_builtin
           str_builtin fs_trained "/proj" form1 (376 # 100)
           "优秀（建议申请奖学金）").
  vm_compute. reflexivity.
Defined.

Lemma accepted_entries (py_int : string -> string + Z)
  (py_float : string -> string + Q) (str_float : Q -> string)
  (form : Form) (row : gmap string cell) :
  gui_get_input_data py_int py_float str_float form = inr row ->
  forall feat dtype min_val max_val,
    In (feat, (dtype, min_val, max_val)) range_checks ->
    exists val x,
      convert py_int py_float dtype (entry_text form feat) = inr (val, x)
      /\ (bound_value min_val <= x)%Q /\ (x <= bound_value max_val)%Q.
Proof.
  unfold gui_get_input_data, range_checks.
  cbn [check_ranges convert entry_text entry_name bound_value].
  destruct (py_int (var_attendance form)) as [? | a] eqn:Pa; [discriminate |].
  destruct (Qle_bool (inject_Z 20) (inject_Z a)
            && Qle_bool (inject_Z a) (inject_Z 32)) eqn:Ea;
    cbn [negb]; [| discriminate].
  destruct (py_float (var_homework_completion form)) as [? | h] eqn:Ph;
    [discriminate |].
  destruct (Qle_bool (3 # 5) h && Qle_bool h 1) eqn:Eh;
    cbn [negb]; [| discriminate].
  destruct (py_int (var_lib_borrow form)) as [? | b] eqn:Pb; [discriminate |].
  destruct (Qle_bool (inject_Z 0) (inject_Z b)
            && Qle_bool (inject_Z b) (inject_Z 10)) eqn:Eb;
    cbn [negb]; [| discriminate].
  destruct (py_int (var_class_interaction form)) as [? | c] eqn:Pc;
    [discriminate |].
  destruct (Qle_bool (inject_Z 0) (inject_Z c)
            && Qle_bool (inject_Z c) (inject_Z 20)) eqn:Ec;
    cbn [negb]; [| discriminate].
  destruct (py_int (var_exam_score form)) as [? | x] eqn:Px; [discriminate |].
  destruct (Qle_bool (inject_Z 60) (inject_Z x)
            && Qle_bool (inject_Z x) (inject_Z 100)) eqn:Ex;
    cbn [negb]; [| discriminate].
  intros _ feat dtype min_val max_val Hin.
  apply andb_prop in Ea as [Ea1 Ea2]. apply andb_prop in Eh as [Eh1 Eh2].
  apply andb_prop in Eb as [Eb1 Eb2]. apply andb_prop in Ec as [Ec1 Ec2].
  apply andb_prop in Ex as [Ex1 Ex2].
  apply Qle_bool_iff in Ea1, Ea2, Eh1, Eh2, Eb1, Eb2, Ec1, Ec2, Ex1, Ex2.
  simpl in Hin.
  destruct Hin as [Hr | [Hr | [Hr | [Hr | [Hr | []]]]]];
    injection Hr as <- <- <- <-; cbn [convert entry_text bound_value].
  - rewrite Pa. eauto.
  - rewrite Ph. eauto.
  - rewrite Pb. eauto.
  - rewrite Pc. eauto.
  - rewrite Px. eauto.
Qed.

(** X13. An entry of the form that reads as a number outside its bounds in
    [range_checks] stops [_predict] at the input error box: no feature dict
    is produced and [predict_gpa] is not consulted, whatever the state of
    the artifacts. *)
Theorem gui_rejects_out_of_range (py_int : string -> string + Z)
  (py_float : string -> string + Q) (str_float : Q -> string)
  (py_str : PyObj -> string) (fs : FileSystem) (root : string)
  (form : Form) (feat : Entry) (dtype : Builtin) (min_val max_val : Bound)
  (val : cell) (x : Q) :
  In (feat, (dtype, min_val, max_val)) range_checks ->
  convert py_int py_float dtype (entry_text form feat) = inr (val, x) ->
  (x < bound_value min_val)%Q \/ (bound_value max_val < x)%Q ->
  exists text,
    gui_get_input_data py_int py_float str_float form = inl text
    /\ gui_predict py_int py_float str_float py_str fs root form
       = InputError text.
Proof.
  intros Hin Hconv Hout.
  destruct (gui_get_input_data py_int py_float str_float form)
    as [text | row] eqn:Hrow.
  - exists text. split; [reflexivity |]. unfold gui_predict.
    rewrite Hrow. reflexivity.
  - exfalso.
    destruct (accepted_entries _ _ _ _ _ Hrow _ _ _ _ Hin)
      as (val' & x' & Hconv' & Hlo & Hhi).
    rewrite Hconv in Hconv'. injection Hconv' as <- <-.
    destruct Hout as [Hout | Hout].
    + apply (Qlt_not_le _ _ Hout). exact Hlo.
    + apply (Qlt_not_le _ _ Hout). exact Hhi.
Qed.

Lemma gui_rejects_out_of_range_witness :
  exists text,
    gui_get_input_data int_builtin float_builtin float_str_builtin
      form_out_of_range = inl text
    /\ gui_predict int_builtin float_builtin float_str_builtin str_builtin
         fs_trained "/proj" form_out_of_range = InputError text.
Proof.
  apply (gui_rejects_out_of_range int_builtin float_builtin float_str_builtin
           str_builtin fs_trained "/proj" form_out_of_range EAttendance
           BuiltinInt (IntBound 20) (IntBound 32) (CInt 50) 50%Q).
  - left. reflexivity.
  - reflexivity.
  - right. reflexivity.
Defined.

(** ** evaluate_model *)

Lemma abs_errors_self (t : list Q) :
  List.Forall (fun x => (x == 0)%Q) (zip_with (fun a b => Qabs (b - a)) t t).
Proof.
  induction t as [| a t IH]; cbn [zip_with]; constructor; [| exact IH].
  setoid_replace (a - a)%Q with 0%Q using relation Qeq by ring. reflexivity.
Qed.

Lemma squared_errors_self (t : list Q) :
  List.Forall (fun x => (x == 0)%Q)
    (zip_with (fun a b => ((a - b) * (a - b))%Q) t t).
Proof.
  induction t as [| a t IH]; cbn [zip_with]; constructor; [ring | exact IH].
Qed.

(** X18. When the predictions equal the true values, on at least two
    values, [evaluate_model] reports a mean absolute error of 0, takes the
    root of a mean squared error of 0, and reports an R2 of 1. *)
Theorem evaluate_model_perfect (fsqrt : Q -> Q) (t : list Q)
  (model_name : string) :
  (2 <= length t)%nat ->
  exists m r,
    evaluate_model fsqrt (Array1 t) (Array1 t) model_name = Return m
    /\ (metric_MAE m == 0)%Q
    /\ metric_RMSE m = fsqrt (mean_squared_error t t)
    /\ (mean_squared_error t t == 0)%Q
    /\ metric_R2 m = Some r /\ (r == 1)%Q.
Proof.
  intros Hn. unfold evaluate_model. cbn [len].
  rewrite Nat.eqb_refl. cbn [negb].
  destruct t as [| a t]; [simpl in Hn; lia |].
  assert (Hnum : (Qsum (zip_with (fun x y => ((x - y) * (x - y))%Q)
                          (a :: t) (a :: t)) == 0)%Q)
    by apply Qsum_zero, squared_errors_self.
  assert (Hr : exists r, r2_score (a :: t) (a :: t) = Some r /\ (r == 1)%Q).
  { unfold r2_score.
    assert (Hp : (length (a :: t) <? 2)%nat = false) by (apply Nat.ltb_ge; lia).
    rewrite Hp.
    destruct (Qeq_bool (Qsum (map _ (a :: t))) 0) eqn:Ed; cbn [negb].
    - apply Qeq_bool_iff in Hnum. rewrite Hnum. cbn [negb].
      exists 1%Q. split; reflexivity.
    - eexists. split; [reflexivity |]. rewrite Hnum.
      unfold Qdiv. rewrite Qmult_0_l. reflexivity. }
  destruct Hr as (r & Hr & Hr1).
  eexists. exists r. split; [reflexivity |]. cbn.
  split; [apply mean_zero, Qsum_zero, (abs_errors_self (a :: t)) |].
  split; [reflexivity |].
  split; [apply mean_zero; exact Hnum |].
  split; assumption.
Qed.

Lemma evaluate_model_perfect_witness :
  exists m r,
    evaluate_model sqrt_approx (Array1 [3; 2; 4]%Q) (Array1 [3; 2; 4]%Q)
      "线性回归" = Return m
    /\ (metric_MAE m == 0)%Q
    /\ metric_RMSE m = sqrt_approx (mean_squared_error [3; 2; 4] [3; 2; 4])%Q
    /\ (mean_squared_error [3; 2; 4] [3; 2; 4] == 0)%Q
    /\ metric_R2 m = Some r /\ (r == 1)%Q.
Proof.
  apply (evaluate_model_perfect sqrt_approx [3; 2; 4]%Q "线性回归").
  simpl. lia.
Defined.
